(** * GUUK AI API: generation dispatch, per-user history and quiz scoring

    A shallow embedding of [main.py].  The FastAPI handlers become functions
    from their arguments and the optional Firestore handle [db] to a result
    (a JSON value or a raised exception) together with the handle afterwards.
    Python dictionaries are finite maps from field names to JSON values.

    A handler takes the user document that [get_current_user] resolved to;
    the account endpoints, the token dependency and the API as a whole follow
    the handlers, with passlib and python-jose as parameters.

    The Firestore client's check of a document path is modelled where a
    generation or upload endpoint builds the path from the body's [user]; the
    lookups by a caller-supplied name ([get_history], [get_quiz],
    [submit_quiz], [get_user] and the account endpoints) are modelled for
    names that are plain document ids, and the theorems about them say so.
    Outside the model: request-body validation and the failures of a
    connected Firestore client on the server side. *)

From stdpp Require Import gmap strings list fin_maps sorting.
From Stdlib Require Import Ascii.

Open Scope string_scope.
Open Scope Z_scope.
Open Scope list_scope.

(** ** JSON values and Python dictionaries *)

#[warnings="-register-all"]
Inductive value :=
  | VNone
  | VStr (s : string)
  | VInt (z : Z)
  | VList (l : list value)
  | VDict (d : gmap string value).

Abbreviation dict := (gmap string value).

(** ** Exceptions and results *)

Inductive exc :=
  | HTTPException (status_code : Z) (detail : string)
  | KeyError (key : string)
  | AttributeError
  | TypeError
  | ValueError (msg : string).

Inductive result (A : Type) :=
  | Return (a : A)
  | Raise (e : exc).
Arguments Return {A} a.
Arguments Raise {A} e.

(** ** The Firestore handle

    [history] holds the [users/{user}/history] subcollections (a subcollection
    exists independently of its parent document), in the order in which
    [stream()] yields them; [quizzes] maps document ids to quiz documents;
    [quiz_results] holds [users/{user}/quiz_results]. *)

Record Firestore := {
  history : gmap string (list dict);
  quizzes : gmap string dict;
  quiz_results : gmap string (list dict)
}.

Definition history_stream (fs : Firestore) (user : string) : list dict :=
  default [] (history fs !! user).

Definition history_add (user : string) (entry : dict) (fs : Firestore) : Firestore :=
  {| history := <[user := history_stream fs user ++ [entry]]> (history fs);
     quizzes := quizzes fs;
     quiz_results := quiz_results fs |}.

Definition quiz_set (id : string) (doc : dict) (fs : Firestore) : Firestore :=
  {| history := history fs;
     quizzes := <[id := doc]> (quizzes fs);
     quiz_results := quiz_results fs |}.

Definition quiz_results_add (user : string) (doc : dict) (fs : Firestore) : Firestore :=
  {| history := history fs;
     quizzes := quizzes fs;
     quiz_results := <[user := default [] (quiz_results fs !! user) ++ [doc]]> (quiz_results fs) |}.

(** [if db: ... history.add(entry)] *)
Definition add_if_db (db : option Firestore) (user : string) (entry : dict) : option Firestore :=
  history_add user entry <$> db.

(** ** External services

    Each upstream call either returns its value or raises; [Throws] carries
    [str(e)].  [chat_completions_create prompt] stands for the whole body of
    the OpenAI chat call down to [.strip()], [images_generate prompt] for the
    image call down to [.url], [blob_upload filename] for the upload to the
    storage bucket down to [blob.public_url]. *)

Inductive outcome :=
  | Returns (v : string)
  | Throws (msg : string).

Record Services := {
  OPENAI_API_KEY : option string;
  chat_completions_create : string -> outcome;
  images_generate : string -> outcome;
  blob_upload : string -> outcome
}.

(** Python's [not s] on an optional string: [None] and [""] are falsy. *)
Definition not_ (s : option string) : bool :=
  match s with
  | None => true
  | Some k => bool_decide (k = "")
  end.

Definition Database_not_connected : exc := HTTPException 500 "Database not connected".
Definition OpenAI_API_key_not_set : exc := HTTPException 500 "OpenAI API key not set".

Definition ok_entry (entry : dict) : value :=
  VDict {[ "status" := VStr "ok"; "entry" := VDict entry ]}.

(** ** Document paths

    [db.collection("users").document(name)] joins [name] to the collection
    path and splits the result at every "/"; the client raises [ValueError]
    unless the document path has an even number of segments, that is, unless
    [name] holds an even number of "/".  A name of several segments addresses
    a nested document.  What the server makes of a segment (an empty one, a
    reserved one) belongs to the failures of a connected client. *)

Fixpoint path_separators (s : string) : nat :=
  match s with
  | EmptyString => 0%nat
  | String c s' => ((if Ascii.eqb c "/" then 1 else 0) + path_separators s')%nat
  end.

Definition document_path_ok (name : string) : bool := Nat.even (path_separators name).

Definition document_path_message : string :=
  "A document must have an even number of path elements".

Definition document_path_error : exc := ValueError document_path_message.

(** Whether the [if db:] block of a generation endpoint gets past
    [.document(user)]: it does not run without a store. *)
Definition accepts (db : option Firestore) (user : string) : bool :=
  match db with
  | None => true
  | Some _ => document_path_ok user
  end.

(** The end of every generation endpoint:
    [if db: db.collection("users").document(user).collection("history").add(entry)]
    and then [return {"status": "ok", "entry": entry}]. *)
Definition file_entry (db : option Firestore) (user : string) (entry : dict)
    : result value * option Firestore :=
  if accepts db user then (Return (ok_entry entry), add_if_db db user entry)
  else (Raise document_path_error, db).

(** ** Pydantic models *)

Record Content := {
  c_user : string;
  c_prompt : string;
  c_output : string;
  c_type : string
}.

Definition Content_dict (data : Content) : dict :=
  {[ "user" := VStr (c_user data); "prompt" := VStr (c_prompt data);
     "output" := VStr (c_output data); "type" := VStr (c_type data) ]}.

Record QuizQuestion := {
  question : string;
  options : list string;
  answer : Z
}.

Record Quiz := {
  title : string;
  questions : list QuizQuestion;
  created_by : string;
  created_at : option string
}.

Record QuizSubmission := {
  quiz_id : string;
  answers : list Z
}.

Definition QuizQuestion_dict (q : QuizQuestion) : dict :=
  {[ "question" := VStr (question q);
     "options" := VList (VStr <$> options q);
     "answer" := VInt (answer q) ]}.

Definition Quiz_dict (quiz : Quiz) : dict :=
  {[ "title" := VStr (title quiz);
     "questions" := VList ((fun q => VDict (QuizQuestion_dict q)) <$> questions quiz);
     "created_by" := VStr (created_by quiz);
     "created_at" := from_option VStr VNone (created_at quiz) ]}.

(** ** History endpoints *)

(** [POST /save-content] *)
Definition save_content (now : string) (data : Content) (current_user : dict)
    (db : option Firestore) : result value * option Firestore :=
  match db with
  | None => (Raise Database_not_connected, db)
  | Some fs =>
    let entry := <["created_at" := VStr now]> (Content_dict data) in
    match current_user !! "username" with
    | Some (VStr username) =>
      (Return (VDict {[ "status" := VStr "saved"; "entry" := VDict entry ]}),
       Some (history_add username entry fs))
    | Some _ => (Raise TypeError, db)
    | None => (Raise (KeyError "username"), db)
    end
  end.

(** [POST /upload-media]; [now_name] and [now] are the two clock readings.
    The history write sits inside the [try], so the client's [ValueError] on
    the path of [user] is reported like a failed upload. *)
Definition upload_media (svc : Services) (now_name now : string)
    (user title media_type content_type file_name : string) (prompt : option string)
    (db : option Firestore) : result value * option Firestore :=
  match db with
  | None => (Raise Database_not_connected, db)
  | Some fs =>
    if negb (String.prefix "image/" content_type || String.prefix "video/" content_type)
    then (Raise (HTTPException 400 "Invalid file type. Only images and videos are allowed."), db)
    else
      let filename := user +:+ "/" +:+ media_type +:+ "/" +:+ now_name +:+ "_" +:+ file_name in
      match blob_upload svc filename with
      | Throws e => (Raise (HTTPException 500 ("Failed to upload file: " +:+ e)), db)
      | Returns public_url =>
        let media_data : dict :=
          {[ "user" := VStr user; "title" := VStr title; "media_type" := VStr media_type;
             "storage_url" := VStr public_url; "created_at" := VStr now;
             "prompt" := from_option VStr VNone prompt ]} in
        if document_path_ok user
        then (Return (VDict {[ "status" := VStr "uploaded"; "filename" := VStr filename;
                               "url" := VStr public_url ]}),
              Some (history_add user media_data fs))
        else (Raise (HTTPException 500 ("Failed to upload file: " +:+ document_path_message)),
              db)
      end
  end.

(** [k.get('created_at', '')], when it is a string. *)
Definition created_at_key (k : dict) : option string :=
  match k !! "created_at" with
  | None => Some ""
  | Some (VStr s) => Some s
  | Some _ => None
  end.

Definition sort_key (k : dict) : string := default "" (created_at_key k).

(** [sorted(..., key=..., reverse=True)] is stable: among equal keys the
    earlier entry stays first.  [insert_desc x l] puts [x] in front of the
    first entry whose key is not greater than the key of [x].  Keys compare
    lexicographically, byte by byte, which on UTF-8 text is Python's order of
    code points. *)
Fixpoint insert_desc (x : dict) (l : list dict) : list dict :=
  match l with
  | [] => [x]
  | y :: l' =>
    if String.ltb (sort_key x) (sort_key y) then y :: insert_desc x l' else x :: l
  end.

Definition sorted_reverse (l : list dict) : list dict := foldr insert_desc [] l.

(** [GET /user/history].  Python compares the keys as they are and raises
    [TypeError] on a string against a non-string; every writer of the history
    stores an ISO string, and the model raises as soon as one stored
    [created_at] is not a string. *)
Definition get_history (user : string) (db : option Firestore) : result value :=
  match db with
  | None => Raise Database_not_connected
  | Some fs =>
    let history_list := history_stream fs user in
    if forallb (fun k => bool_decide (is_Some (created_at_key k))) history_list
    then Return (VList (VDict <$> sorted_reverse history_list))
    else Raise TypeError
  end.

(** ** Legacy generation endpoints *)

(** [POST /generate-text] *)
Definition generate_text (svc : Services) (now user prompt : string)
    (db : option Firestore) : result value * option Firestore :=
  if not_ (OPENAI_API_KEY svc) then (Raise OpenAI_API_key_not_set, db)
  else
    let output :=
      match chat_completions_create svc prompt with
      | Returns o => o
      | Throws e => "[OpenAI error: " +:+ e +:+ "]"
      end in
    let entry : dict :=
      {[ "user" := VStr user; "prompt" := VStr prompt; "output" := VStr output;
         "type" := VStr "text"; "created_at" := VStr now ]} in
    file_entry db user entry.

(** [POST /generate-image] *)
Definition generate_image (svc : Services) (now user prompt : string)
    (db : option Firestore) : result value * option Firestore :=
  if not_ (OPENAI_API_KEY svc) then (Raise OpenAI_API_key_not_set, db)
  else
    let '(image_url, prompt) :=
      match images_generate svc prompt with
      | Returns url => (url, prompt)
      | Throws e =>
        ("https://placehold.co/400x300?text=OpenAI+Error",
         "[OpenAI error: " +:+ e +:+ "] " +:+ prompt)
      end in
    let entry : dict :=
      {[ "user" := VStr user; "prompt" := VStr prompt; "storage_url" := VStr image_url;
         "media_type" := VStr "image"; "type" := VStr "image_generation";
         "created_at" := VStr now ]} in
    file_entry db user entry.

(** [POST /generate-video] *)
Definition generate_video (now user prompt : string)
    (db : option Firestore) : result value * option Firestore :=
  let video_url := "https://www.w3schools.com/html/mov_bbb.mp4" in
  let entry : dict :=
    {[ "user" := VStr user; "prompt" := VStr prompt; "storage_url" := VStr video_url;
       "media_type" := VStr "video"; "type" := VStr "video_generation";
       "created_at" := VStr now ]} in
  file_entry db user entry.

(** [POST /generate-animation] *)
Definition generate_animation (now user prompt : string)
    (db : option Firestore) : result value * option Firestore :=
  let animation_url := "https://media.giphy.com/media/ICOgUNjpvO0PC/giphy.gif" in
  let entry : dict :=
    {[ "user" := VStr user; "prompt" := VStr prompt; "storage_url" := VStr animation_url;
       "media_type" := VStr "animation"; "type" := VStr "animation_generation";
       "created_at" := VStr now ]} in
  file_entry db user entry.

(** ** Provider adapters *)

Definition generate_text_openai (svc : Services) (prompt : string) : outcome :=
  chat_completions_create svc prompt.

Definition generate_text_gemini (prompt : string) : string :=
  "[Gemini] " +:+ prompt +:+ " (stub)".

Definition generate_text_claude (prompt : string) : string :=
  "[Claude] " +:+ prompt +:+ " (stub)".

Definition generate_text_manus (prompt : string) : string :=
  "[Manus] " +:+ prompt +:+ " (stub)".

Definition generate_image_openai (svc : Services) (prompt : string) : outcome :=
  images_generate svc prompt.

Definition generate_image_gemini (prompt : string) : string :=
  "https://placehold.co/1024x1024?text=Gemini+Image+Stub".

Definition generate_image_claude (prompt : string) : string :=
  "https://placehold.co/1024x1024?text=Claude+Image+Stub".

Definition generate_image_manus (prompt : string) : string :=
  "https://placehold.co/1024x1024?text=Manus+Image+Stub".

Definition generate_video_ai (prompt provider : string) : string :=
  if decide (provider = "openai") then "https://www.w3schools.com/html/mov_bbb.mp4"
  else "https://placehold.co/640x360?text=" +:+ provider +:+ "+Video+Stub".

Definition generate_cartoon_video (prompt provider : string) : string :=
  if decide (provider = "openai") then "https://media.giphy.com/media/ICOgUNjpvO0PC/giphy.gif"
  else "https://placehold.co/400x300?text=" +:+ provider +:+ "+Cartoon+Stub".

Definition generate_voiceover (prompt provider : string) : string :=
  if decide (provider = "openai")
  then "https://www.soundhelix.com/examples/mp3/SoundHelix-Song-1.mp3"
  else "https://placehold.co/300x50?text=" +:+ provider +:+ "+Voice+Stub".

(** ** Advanced endpoints

    [model] is accepted and unused; [current_user] is what the bearer token
    resolved to, and is unused by the bodies as well. *)

(** [POST /generate-text-advanced] *)
Definition generate_text_advanced (svc : Services) (now user prompt provider : string)
    (model : option string) (current_user : dict)
    (db : option Firestore) : result value * option Firestore :=
  if not_ (OPENAI_API_KEY svc) && bool_decide (provider = "openai")
  then (Raise OpenAI_API_key_not_set, db)
  else
    let attempt :=
      if decide (provider = "openai") then generate_text_openai svc prompt
      else if decide (provider = "gemini") then Returns (generate_text_gemini prompt)
      else if decide (provider = "claude") then Returns (generate_text_claude prompt)
      else if decide (provider = "manus") then Returns (generate_text_manus prompt)
      else Returns ("[Unknown provider: " +:+ provider +:+ "]") in
    let output :=
      match attempt with
      | Returns o => o
      | Throws e => "[AI error: " +:+ e +:+ "]"
      end in
    let entry : dict :=
      {[ "user" := VStr user; "prompt" := VStr prompt; "output" := VStr output;
         "type" := VStr ("text_" +:+ provider); "provider" := VStr provider;
         "created_at" := VStr now ]} in
    file_entry db user entry.

(** [POST /generate-image-advanced] *)
Definition generate_image_advanced (svc : Services) (now user prompt provider : string)
    (model : option string) (current_user : dict)
    (db : option Firestore) : result value * option Firestore :=
  if not_ (OPENAI_API_KEY svc) && bool_decide (provider = "openai")
  then (Raise OpenAI_API_key_not_set, db)
  else
    let attempt :=
      if decide (provider = "openai") then generate_image_openai svc prompt
      else if decide (provider = "gemini") then Returns (generate_image_gemini prompt)
      else if decide (provider = "claude") then Returns (generate_image_claude prompt)
      else if decide (provider = "manus") then Returns (generate_image_manus prompt)
      else Returns ("https://placehold.co/400x300?text=" +:+ provider +:+ "+Image+Stub") in
    let '(image_url, prompt) :=
      match attempt with
      | Returns url => (url, prompt)
      | Throws e =>
        ("https://placehold.co/400x300?text=AI+Error", "[AI error: " +:+ e +:+ "] " +:+ prompt)
      end in
    let entry : dict :=
      {[ "user" := VStr user; "prompt" := VStr prompt; "storage_url" := VStr image_url;
         "media_type" := VStr "image"; "type" := VStr ("image_generation_" +:+ provider);
         "provider" := VStr provider; "created_at" := VStr now ]} in
    file_entry db user entry.

(** [POST /generate-video-advanced] *)
Definition generate_video_advanced (now user prompt provider : string)
    (model : option string) (current_user : dict)
    (db : option Firestore) : result value * option Firestore :=
  let video_url := generate_video_ai prompt provider in
  let entry : dict :=
    {[ "user" := VStr user; "prompt" := VStr prompt; "storage_url" := VStr video_url;
       "media_type" := VStr "video"; "type" := VStr ("video_generation_" +:+ provider);
       "provider" := VStr provider; "created_at" := VStr now ]} in
  file_entry db user entry.

(** [POST /generate-cartoon-advanced] *)
Definition generate_cartoon_advanced (now user prompt provider : string)
    (model : option string) (current_user : dict)
    (db : option Firestore) : result value * option Firestore :=
  let cartoon_url := generate_cartoon_video prompt provider in
  let entry : dict :=
    {[ "user" := VStr user; "prompt" := VStr prompt; "storage_url" := VStr cartoon_url;
       "media_type" := VStr "animation"; "type" := VStr ("cartoon_generation_" +:+ provider);
       "provider" := VStr provider; "created_at" := VStr now ]} in
  file_entry db user entry.

(** [POST /generate-voiceover-advanced] *)
Definition generate_voiceover_advanced (now user prompt provider : string)
    (model : option string) (current_user : dict)
    (db : option Firestore) : result value * option Firestore :=
  let voice_url := generate_voiceover prompt provider in
  let entry : dict :=
    {[ "user" := VStr user; "prompt" := VStr prompt; "storage_url" := VStr voice_url;
       "media_type" := VStr "audio"; "type" := VStr ("voiceover_generation_" +:+ provider);
       "provider" := VStr provider; "created_at" := VStr now ]} in
  file_entry db user entry.

(** ** Quiz endpoints *)

(** [POST /quiz/create]; [quiz_ref_id] is the id Firestore generates for the
    new document. *)
Definition create_quiz (now : string) (quiz : Quiz) (quiz_ref_id : string)
    (current_user : dict) (db : option Firestore) : result value * option Firestore :=
  match db with
  | None => (Raise Database_not_connected, db)
  | Some fs =>
    match current_user !! "username" with
    | None => (Raise (KeyError "username"), db)
    | Some username =>
      let quiz_data :=
        <["created_at" := VStr now]> (<["created_by" := username]> (Quiz_dict quiz)) in
      (Return (VDict {[ "status" := VStr "created"; "quiz_id" := VStr quiz_ref_id ]}),
       Some (quiz_set quiz_ref_id quiz_data fs))
    end
  end.

(** The loop of [list_quizzes]: one pass over the streamed documents,
    appending to [result]. *)
Definition list_quizzes_loop (docs : list (string * dict)) : list value :=
  foldl (fun result '(id, q) =>
           let d := <["id" := VStr id]> q in
           let d := delete "answer" d in
           result ++ [VDict d])
        [] docs.

(** [GET /quiz/list] *)
Definition list_quizzes (current_user : dict) (db : option Firestore) : result value :=
  match db with
  | None => Raise Database_not_connected
  | Some fs => Return (VList (list_quizzes_loop (map_to_list (quizzes fs))))
  end.

(** [q.pop("answer", None)] on one element of [quiz["questions"]]. *)
Definition pop_answer (q : value) : result value :=
  match q with
  | VDict d => Return (VDict (delete "answer" d))
  | _ => Raise AttributeError
  end.

Fixpoint pop_answers (qs : list value) : result (list value) :=
  match qs with
  | [] => Return []
  | q :: rest =>
    match pop_answer q with
    | Raise e => Raise e
    | Return q' =>
      match pop_answers rest with
      | Raise e => Raise e
      | Return rest' => Return (q' :: rest')
      end
    end
  end.

(** [GET /quiz/{quiz_id}] *)
Definition get_quiz (quiz_id : string) (current_user : dict)
    (db : option Firestore) : result value :=
  match db with
  | None => Raise Database_not_connected
  | Some fs =>
    match quizzes fs !! quiz_id with
    | None => Raise (HTTPException 404 "Quiz not found")
    | Some quiz =>
      match quiz !! "questions" with
      | None => Raise (KeyError "questions")
      | Some (VList qs) =>
        match pop_answers qs with
        | Raise e => Raise e
        | Return qs' =>
          Return (VDict (<["id" := VStr quiz_id]> (<["questions" := VList qs']> quiz)))
        end
      | Some _ => Raise TypeError
      end
    end
  end.

(** [sub.answers[idx] == q.get("answer")]: an int equals only an int. *)
Definition answer_eq (a : Z) (v : option value) : bool :=
  match v with
  | Some (VInt c) => bool_decide (a = c)
  | _ => false
  end.

(** The scoring loop of [submit_quiz], [idx] running with [enumerate]; the
    [and] evaluates [q.get] only when [idx < len(sub.answers)]. *)
Fixpoint score_loop (idx : nat) (questions : list value) (answers : list Z)
    (correct : Z) : result Z :=
  match questions with
  | [] => Return correct
  | q :: rest =>
    if bool_decide (idx < length answers)%nat then
      match q with
      | VDict d =>
        if answer_eq (nth idx answers 0) (d !! "answer")
        then score_loop (S idx) rest answers (correct + 1)
        else score_loop (S idx) rest answers correct
      | _ => Raise AttributeError
      end
    else score_loop (S idx) rest answers correct
  end.

(** [POST /quiz/submit] *)
Definition submit_quiz (now : string) (sub : QuizSubmission) (current_user : dict)
    (db : option Firestore) : result value * option Firestore :=
  match db with
  | None => (Raise Database_not_connected, db)
  | Some fs =>
    match quizzes fs !! quiz_id sub with
    | None => (Raise (HTTPException 404 "Quiz not found"), db)
    | Some quiz =>
      match quiz !! "questions" with
      | None => (Raise (KeyError "questions"), db)
      | Some (VList qs) =>
        match score_loop 0 qs (answers sub) 0 with
        | Raise e => (Raise e, db)
        | Return correct =>
          match current_user !! "username" with
          | None => (Raise (KeyError "username"), db)
          | Some (VStr username) =>
            let total := Z.of_nat (length qs) in
            let result : dict :=
              {[ "user" := VStr username; "quiz_id" := VStr (quiz_id sub);
                 "score" := VInt correct; "total" := VInt total;
                 "submitted_at" := VStr now;
                 "answers" := VList (VInt <$> answers sub) ]} in
            (Return (VDict {[ "status" := VStr "submitted"; "score" := VInt correct;
                              "total" := VInt total ]}),
             Some (quiz_results_add username result fs))
          | Some _ => (Raise TypeError, db)
          end
        end
      | Some _ => (Raise TypeError, db)
      end
    end
  end.

(** ** Dispatch over the endpoints *)

Inductive LegacyEndpoint := LText | LImage | LVideo | LAnimation.

Inductive AdvancedEndpoint := AText | AImage | AVideo | ACartoon | AVoiceover.

Definition legacy (ep : LegacyEndpoint) (svc : Services) :=
  match ep with
  | LText => generate_text svc
  | LImage => generate_image svc
  | LVideo => generate_video
  | LAnimation => generate_animation
  end.

Definition dispatch (ep : AdvancedEndpoint) (svc : Services) :=
  match ep with
  | AText => generate_text_advanced svc
  | AImage => generate_image_advanced svc
  | AVideo => generate_video_advanced
  | ACartoon => generate_cartoon_advanced
  | AVoiceover => generate_voiceover_advanced
  end.

(** The requests that reach a handler body, each with the clock readings and
    generated ids it consumes. *)
Inductive request :=
  | SaveContent (now : string) (data : Content) (current_user : dict)
  | UploadMedia (now_name now : string) (user title media_type content_type file_name : string)
      (prompt : option string)
  | GetHistory (user : string)
  | Generate (ep : LegacyEndpoint) (now user prompt : string)
  | GenerateAdvanced (ep : AdvancedEndpoint) (now user prompt provider : string)
      (model : option string) (current_user : dict)
  | CreateQuiz (now : string) (quiz : Quiz) (quiz_ref_id : string) (current_user : dict)
  | ListQuizzes (current_user : dict)
  | GetQuiz (quiz_id : string) (current_user : dict)
  | SubmitQuiz (now : string) (sub : QuizSubmission) (current_user : dict).

Definition handle (svc : Services) (r : request) (db : option Firestore)
    : result value * option Firestore :=
  match r with
  | SaveContent now data cu => save_content now data cu db
  | UploadMedia now_name now user title media_type content_type file_name prompt =>
    upload_media svc now_name now user title media_type content_type file_name prompt db
  | GetHistory user => (get_history user db, db)
  | Generate ep now user prompt => legacy ep svc now user prompt db
  | GenerateAdvanced ep now user prompt provider model cu =>
    dispatch ep svc now user prompt provider model cu db
  | CreateQuiz now quiz id cu => create_quiz now quiz id cu db
  | ListQuizzes cu => (list_quizzes cu db, db)
  | GetQuiz id cu => (get_quiz id cu db, db)
  | SubmitQuiz now sub cu => submit_quiz now sub cu db
  end.

(** The states the handlers can reach from a given handle. *)
Inductive reachable (svc : Services) (db0 : option Firestore) : option Firestore -> Prop :=
  | reachable_init : reachable svc db0 db0
  | reachable_step db r :
      reachable svc db0 db -> reachable svc db0 (handle svc r db).2.

(** ** Vocabulary of the specification *)

(** A name that is one non-empty path segment: the document ids the model
    of the account, quiz and history lookups is about. *)
Definition plain_id (name : string) : bool :=
  negb (String.eqb name "") && Nat.eqb (path_separators name) 0.

(** The providers the text and image endpoints have a branch for. *)
Definition providers : list string := ["openai"; "gemini"; "claude"; "manus"].

(** The path segment of each advanced endpoint, and the label the specification
    expects in [type]: ["{kind}_{provider}"]. *)
Definition endpoint_name (ep : AdvancedEndpoint) : string :=
  match ep with
  | AText => "text"
  | AImage => "image"
  | AVideo => "video"
  | ACartoon => "cartoon"
  | AVoiceover => "voiceover"
  end.

Definition spec_type (ep : AdvancedEndpoint) (provider : string) : string :=
  endpoint_name ep +:+ "_" +:+ provider.

(** The label each advanced endpoint writes in [type]. *)
Definition type_label (ep : AdvancedEndpoint) (provider : string) : string :=
  match ep with
  | AText => "text_" +:+ provider
  | _ => endpoint_name ep +:+ "_generation_" +:+ provider
  end.

(** The endpoints that call OpenAI and are guarded by the key check. *)
Definition checks_key (ep : AdvancedEndpoint) : bool :=
  match ep with
  | AText | AImage => true
  | _ => false
  end.

Definition legacy_checks_key (ep : LegacyEndpoint) : bool :=
  match ep with
  | LText | LImage => true
  | _ => false
  end.

Definition str_field (entry : dict) (field : string) : option string :=
  match entry !! field with
  | Some (VStr s) => Some s
  | _ => None
  end.

(** The payload field: [output] for text, [storage_url] for media. *)
Definition payload_field (ep : AdvancedEndpoint) : string :=
  match ep with
  | AText => "output"
  | _ => "storage_url"
  end.

(** A visible marker: the word "unknown" or "error" in any letter case. *)
Definition lower_ascii (c : ascii) : ascii :=
  let n := nat_of_ascii c in
  if bool_decide (65 <= n <= 90)%nat then ascii_of_nat (n + 32) else c.

Fixpoint lower (s : string) : string :=
  match s with
  | EmptyString => EmptyString
  | String c s' => String (lower_ascii c) (lower s')
  end.

Fixpoint starts_with (p s : string) : bool :=
  match p, s with
  | EmptyString, _ => true
  | String a p', String b s' => Ascii.eqb a b && starts_with p' s'
  | String _ _, EmptyString => false
  end.

Fixpoint contains (needle hay : string) : bool :=
  starts_with needle hay ||
  match hay with
  | EmptyString => false
  | String _ hay' => contains needle hay'
  end.

Definition has_marker (s : string) : bool :=
  contains "unknown" (lower s) || contains "error" (lower s).

(** What each endpoint puts in the payload field for a provider it has no
    branch for: text names the provider as unknown, media build a stub URL. *)
Definition unknown_payload (ep : AdvancedEndpoint) (provider : string) : string :=
  match ep with
  | AText => "[Unknown provider: " +:+ provider +:+ "]"
  | AImage => "https://placehold.co/400x300?text=" +:+ provider +:+ "+Image+Stub"
  | AVideo => "https://placehold.co/640x360?text=" +:+ provider +:+ "+Video+Stub"
  | ACartoon => "https://placehold.co/400x300?text=" +:+ provider +:+ "+Cartoon+Stub"
  | AVoiceover => "https://placehold.co/300x50?text=" +:+ provider +:+ "+Voice+Stub"
  end.

(** The content kinds of the data model, the kind each endpoint serves, and
    the [media_type] the specification gives a kind: none for text, ["audio"]
    for voiceover, the kind's own name otherwise. *)
Inductive ContentKind := text | image | video | animation | voiceover.

Definition kind_name (k : ContentKind) : string :=
  match k with
  | text => "text"
  | image => "image"
  | video => "video"
  | animation => "animation"
  | voiceover => "voiceover"
  end.

Definition legacy_kind (ep : LegacyEndpoint) : ContentKind :=
  match ep with
  | LText => text
  | LImage => image
  | LVideo => video
  | LAnimation => animation
  end.

Definition advanced_kind (ep : AdvancedEndpoint) : ContentKind :=
  match ep with
  | AText => text
  | AImage => image
  | AVideo => video
  | ACartoon => animation
  | AVoiceover => voiceover
  end.

Definition spec_media_type (k : ContentKind) : option string :=
  match k with
  | text => None
  | voiceover => Some "audio"
  | _ => Some (kind_name k)
  end.

(** [media_type] is present exactly when [storage_url] is. *)
Definition media_consistent (entry : dict) : Prop :=
  is_Some (entry !! "media_type") <-> is_Some (entry !! "storage_url").

Definition history_consistent (db : option Firestore) : Prop :=
  forall fs user entry,
    db = Some fs -> entry ∈ history_stream fs user -> media_consistent entry.

(** What every writer of the history stores: a consistent entry whose
    [created_at] is a string. *)
Definition well_formed_entry (entry : dict) : Prop :=
  media_consistent entry /\ is_Some (created_at_key entry).

(** Every stored [created_at] is a string. *)
Definition timestamps_are_strings (l : list dict) : Prop :=
  Forall (fun k => is_Some (created_at_key k)) l.

Definition history_timestamps (db : option Firestore) : Prop :=
  forall fs user, db = Some fs -> timestamps_are_strings (history_stream fs user).


(** Descending order of the sort keys. *)
Definition key_ge (a b : dict) : Prop := String.leb (sort_key b) (sort_key a) = true.

(** The positions counted by the specification of the score: [i < M],
    [i < N] and [answers[i]] equal to the correct index of question [i]. *)
Definition correct_positions (qs : list QuizQuestion) (answers : list Z) : list nat :=
  filter (fun i => nth i answers 0 = nth i (answer <$> qs) 0)
         (seq 0 (Nat.min (length answers) (length qs))).

(** The same count, walking both lists together. *)
Fixpoint zip_count (correct answers : list Z) : nat :=
  match correct, answers with
  | c :: correct', a :: answers' =>
    (if bool_decide (a = c) then 1 else 0)%nat + zip_count correct' answers'
  | _, _ => 0%nat
  end.

(** An index that selects one of the options of the question. *)
Definition valid_option (q : QuizQuestion) (i : Z) : Prop :=
  0 <= i < Z.of_nat (length (options q)).

Definition questions_value (qs : list QuizQuestion) : value :=
  VList ((fun q => VDict (QuizQuestion_dict q)) <$> qs).

(** The response of [submit_quiz]. *)
Definition submitted (score total : Z) : value :=
  VDict {[ "status" := VStr "submitted"; "score" := VInt score; "total" := VInt total ]}.

(** What [list_quizzes] returns for the stored document [q] under [id]. *)
Definition listed (id : string) (q : dict) : dict :=
  delete "answer" (<["id" := VStr id]> q).

(** ** Sample data *)

Definition empty_store : Firestore :=
  {| history := ∅; quizzes := ∅; quiz_results := ∅ |}.

Definition svc_with_key : Services :=
  {| OPENAI_API_KEY := Some "sk-test";
     chat_completions_create := fun prompt => Returns ("echo " +:+ prompt);
     images_generate := fun _ => Returns "https://img.example/1.png";
     blob_upload := fun filename => Returns ("https://blob.example/" +:+ filename) |}.

Definition svc_without_key : Services :=
  {| OPENAI_API_KEY := None;
     chat_completions_create := fun _ => Throws "no api key";
     images_generate := fun _ => Throws "no api key";
     blob_upload := fun filename => Returns ("https://blob.example/" +:+ filename) |}.

Definition svc_failing : Services :=
  {| OPENAI_API_KEY := Some "sk-test";
     chat_completions_create := fun _ => Throws "timeout";
     images_generate := fun _ => Throws "timeout";
     blob_upload := fun _ => Throws "timeout" |}.

(** A history with an entry that has no timestamp between two that have. *)
Definition entry_old : dict :=
  {[ "prompt" := VStr "old"; "created_at" := VStr "2024-01-01T10:00:00" ]}.
Definition entry_untimed : dict := {[ "prompt" := VStr "untimed" ]}.
Definition entry_new : dict :=
  {[ "prompt" := VStr "new"; "created_at" := VStr "2024-03-01T09:30:00" ]}.

Definition sample_history : Firestore :=
  {| history := {[ "alice" := [entry_old; entry_untimed; entry_new] ]};
     quizzes := ∅;
     quiz_results := ∅ |}.

Definition alice : dict := {[ "username" := VStr "alice" ]}.
Definition bob : dict := {[ "username" := VStr "bob" ]}.

Definition quiz_021 : Quiz :=
  {| title := "sample";
     questions := [ {| question := "q0"; options := ["a"; "b"; "c"]; answer := 0 |};
                    {| question := "q1"; options := ["a"; "b"; "c"]; answer := 2 |};
                    {| question := "q2"; options := ["a"; "b"; "c"]; answer := 1 |} ];
     created_by := "alice";
     created_at := None |}.

(** A quiz whose only question names a correct index outside its options. *)
Definition quiz_bad_index : Quiz :=
  {| title := "bad";
     questions := [ {| question := "q0"; options := ["a"; "b"]; answer := 5 |} ];
     created_by := "alice";
     created_at := None |}.

(** ** Accounts and tokens

    The [users] documents sit beside the subcollections of [Firestore] in the
    same client; [db] for the account endpoints is the client as a whole.
    passlib and python-jose are parameters: [pwd_hash] is
    [pwd_context.hash], which draws a salt, [pwd_verify] is
    [pwd_context.verify] on the stored value as it is, [jwt_encode] signs a
    payload with [SECRET_KEY], and [jwt_decode] at a given time returns the
    payload or fails with [JWTError].  Clock readings of [datetime.utcnow()]
    are seconds. *)

Record Crypto := {
  pwd_hash : string -> string -> result string;
  pwd_verify : string -> value -> result bool;
  jwt_encode : dict -> string;
  jwt_decode : Z -> string -> option dict
}.

Record Database := {
  users : gmap string dict;
  store : Firestore
}.

Record RegisterModel := {
  r_username : string;
  r_password : string;
  r_email : option string
}.

Record LoginModel := {
  l_username : string;
  l_password : string
}.

Definition ACCESS_TOKEN_EXPIRE_MINUTES : Z := 60.

Definition verify_password (crypto : Crypto) (plain_password : string)
    (hashed_password : value) : result bool :=
  pwd_verify crypto plain_password hashed_password.

Definition get_password_hash (crypto : Crypto) (salt password : string) : result string :=
  pwd_hash crypto salt password.

(** [expires_delta or timedelta(minutes=...)]: a zero delta is falsy. *)
Definition create_access_token (crypto : Crypto) (utcnow : Z) (data : dict)
    (expires_delta : option Z) : string :=
  let delta :=
    match expires_delta with
    | Some d => if bool_decide (d = 0) then ACCESS_TOKEN_EXPIRE_MINUTES * 60 else d
    | None => ACCESS_TOKEN_EXPIRE_MINUTES * 60
    end in
  let expire := utcnow + delta in
  jwt_encode crypto (<["exp" := VInt expire]> data).

Definition get_user (username : string) (db : option Database) : option dict :=
  match db with
  | None => None
  | Some d => users d !! username
  end.

(** Python's truth value of what [get_user] returns: [None] and the empty
    dictionary are falsy. *)
Definition user_truthy (user : option dict) : bool :=
  match user with
  | None => false
  | Some u => negb (bool_decide (size u = 0%nat))
  end.

(** [authenticate_user]; [Return None] is the source's [False]. *)
Definition authenticate_user (crypto : Crypto) (username password : string)
    (db : option Database) : result (option dict) :=
  let user := get_user username db in
  if negb (user_truthy user) then Return None
  else
    match user with
    | None => Return None
    | Some u =>
      match u !! "password_hash" with
      | None => Return None
      | Some hashed =>
        match verify_password crypto password hashed with
        | Raise e => Raise e
        | Return false => Return None
        | Return true => Return (Some u)
        end
      end
    end.

Definition credentials_exception : exc := HTTPException 401 "Could not validate credentials".

(** [get_current_user]; a [sub] that is not a string cannot name a document. *)
Definition get_current_user (crypto : Crypto) (utcnow : Z) (token : string)
    (db : option Database) : result dict :=
  match jwt_decode crypto utcnow token with
  | None => Raise credentials_exception
  | Some payload =>
    match payload !! "sub" with
    | None | Some VNone => Raise credentials_exception
    | Some (VStr username) =>
      match get_user username db with
      | None => Raise credentials_exception
      | Some user => Return user
      end
    | Some _ =>
      match db with
      | None => Raise credentials_exception
      | Some _ => Raise TypeError
      end
    end
  end.

Definition users_set (username : string) (doc : dict) (d : Database) : Database :=
  {| users := <[username := doc]> (users d); store := store d |}.

(** [POST /register]; [now_created] and [now_login] are the two clock
    readings. *)
Definition register (crypto : Crypto) (salt now_created now_login : string)
    (data : RegisterModel) (db : option Database) : result value * option Database :=
  match db with
  | None => (Raise Database_not_connected, db)
  | Some d =>
    if user_truthy (get_user (r_username data) db)
    then (Raise (HTTPException 400 "Username already exists"), db)
    else
      match get_password_hash crypto salt (r_password data) with
      | Raise e => (Raise e, db)
      | Return password_hash =>
        let user_data : dict :=
          {[ "username" := VStr (r_username data);
             "password_hash" := VStr password_hash;
             "email" := from_option VStr VNone (r_email data);
             "created_at" := VStr now_created;
             "last_login" := VStr now_login ]} in
        (Return (VDict {[ "status" := VStr "registered"; "user" := VStr (r_username data) ]}),
         Some (users_set (r_username data) user_data d))
      end
  end.

(** [POST /login]; [update] merges into the document just read. *)
Definition login (crypto : Crypto) (utcnow : Z) (now : string) (data : LoginModel)
    (db : option Database) : result value * option Database :=
  match db with
  | None => (Raise Database_not_connected, db)
  | Some d =>
    match authenticate_user crypto (l_username data) (l_password data) db with
    | Raise e => (Raise e, db)
    | Return None => (Raise (HTTPException 401 "Incorrect username or password"), db)
    | Return (Some user) =>
      let access_token :=
        create_access_token crypto utcnow {[ "sub" := VStr (l_username data) ]} None in
      (Return (VDict {[ "access_token" := VStr access_token; "token_type" := VStr "bearer";
                        "user" := VStr (l_username data) ]}),
       Some (users_set (l_username data) (<["last_login" := VStr now]> user) d))
    end
  end.

(** [POST /login/simple]; [set(..., merge=True)] creates the document when
    there is none. *)
Definition login_simple (now : string) (username : string)
    (db : option Database) : result value * option Database :=
  match db with
  | None => (Raise Database_not_connected, db)
  | Some d =>
    let doc := <["last_login" := VStr now]> (default ∅ (users d !! username)) in
    (Return (VDict {[ "status" := VStr "ok"; "user" := VStr username ]}),
     Some (users_set username doc d))
  end.

(** ** The API as a whole *)

(** Running a handler of the history and quiz part on the client. *)
Definition on_store (db : option Database)
    (h : option Firestore -> result value * option Firestore) : result value * option Database :=
  let '(r, s) := h (store <$> db) in
  (r, match db, s with
      | Some d, Some fs => Some {| users := users d; store := fs |}
      | _, _ => db
      end).

(** The endpoints declared with [Depends(get_current_user)], and the request
    with the resolved user filled in. *)
Definition requires_token (r : request) : bool :=
  match r with
  | SaveContent _ _ _ | GenerateAdvanced _ _ _ _ _ _ _ | CreateQuiz _ _ _ _
  | ListQuizzes _ | GetQuiz _ _ | SubmitQuiz _ _ _ => true
  | UploadMedia _ _ _ _ _ _ _ _ | GetHistory _ | Generate _ _ _ _ => false
  end.

Definition with_current_user (current_user : dict) (r : request) : request :=
  match r with
  | SaveContent now data _ => SaveContent now data current_user
  | GenerateAdvanced ep now user prompt provider model _ =>
    GenerateAdvanced ep now user prompt provider model current_user
  | CreateQuiz now quiz id _ => CreateQuiz now quiz id current_user
  | ListQuizzes _ => ListQuizzes current_user
  | GetQuiz id _ => GetQuiz id current_user
  | SubmitQuiz now sub _ => SubmitQuiz now sub current_user
  | _ => r
  end.

(** A request as it arrives: the dependency runs first and its exception is
    the response. *)
Definition serve (crypto : Crypto) (svc : Services) (utcnow : Z) (token : string)
    (r : request) (db : option Database) : result value * option Database :=
  if requires_token r then
    match get_current_user crypto utcnow token db with
    | Raise e => (Raise e, db)
    | Return current_user => on_store db (handle svc (with_current_user current_user r))
    end
  else on_store db (handle svc r).

Inductive call :=
  | Register (salt now_created now_login : string) (data : RegisterModel)
  | Login (utcnow : Z) (now : string) (data : LoginModel)
  | LoginSimple (now : string) (username : string)
  | Serve (utcnow : Z) (token : string) (r : request).

Definition api (crypto : Crypto) (svc : Services) (c : call) (db : option Database)
    : result value * option Database :=
  match c with
  | Register salt now_created now_login data => register crypto salt now_created now_login data db
  | Login utcnow now data => login crypto utcnow now data db
  | LoginSimple now username => login_simple now username db
  | Serve utcnow token r => serve crypto svc utcnow token r db
  end.

Inductive api_reachable (crypto : Crypto) (svc : Services) (db0 : option Database)
    : option Database -> Prop :=
  | api_reachable_init : api_reachable crypto svc db0 db0
  | api_reachable_step db c :
      api_reachable crypto svc db0 db -> api_reachable crypto svc db0 (api crypto svc c db).2.

(** Every account that can log in carries its own name. *)
Definition accounts_named (db : option Database) : Prop :=
  forall d username user,
    db = Some d -> users d !! username = Some user ->
    is_Some (user !! "password_hash") -> user !! "username" = Some (VStr username).

Definition empty_database : Database := {| users := ∅; store := empty_store |}.

(** A stand-in for passlib and python-jose: the hash is the password behind
    a tag, a token is its subject behind a tag and never expires. *)
Definition toy_crypto : Crypto :=
  {| pwd_hash := fun salt password => Return ("$toy$" +:+ password);
     pwd_verify := fun plain hashed =>
       match hashed with
       | VStr h => Return (String.eqb h ("$toy$" +:+ plain))
       | VNone => Return false
       | _ => Raise TypeError
       end;
     jwt_encode := fun payload =>
       match payload !! "sub" with
       | Some (VStr sub) => "jwt:" +:+ sub
       | _ => "jwt"
       end;
     jwt_decode := fun utcnow token =>
       if String.prefix "jwt:" token
       then Some {[ "sub" := VStr (String.substring 4 (String.length token - 4) token) ]}
       else None |}.

Definition alice_registration : RegisterModel :=
  {| r_username := "alice"; r_password := "pw123"; r_email := None |}.

Definition alice_login : LoginModel :=
  {| l_username := "alice"; l_password := "pw123" |}.

(** The listing after a successful write of [entry] for [user]. *)
Definition listed_with (fs : Firestore) (user : string) (entry : dict)
    (db' : option Firestore) : Prop :=
  exists l,
    get_history user db' = Return (VList (VDict <$> l))
    /\ l ≡ₚ entry :: history_stream fs user
    /\ (Forall (fun k => String.ltb (sort_key k) (sort_key entry) = true)
               (history_stream fs user) ->
        l = entry :: sorted_reverse (history_stream fs user)).

(** The store after alice created the sample quiz under the id ["q1"]. *)
Definition sample_quiz : dict :=
  <["created_at" := VStr "t0"]> (<["created_by" := VStr "alice"]> (Quiz_dict quiz_021)).

Definition sample_quiz_store : Firestore := quiz_set "q1" sample_quiz empty_store.

(** * Properties *)

(** ** Dispatch *)

Ltac unfold_endpoints :=
  unfold dispatch, legacy, generate_text, generate_image, generate_video, generate_animation,
    generate_text_advanced, generate_image_advanced, generate_video_advanced,
    generate_cartoon_advanced, generate_voiceover_advanced,
    generate_text_openai, generate_image_openai,
    generate_video_ai, generate_cartoon_video, generate_voiceover, file_entry.

Ltac by_entry := eexists; repeat split; reflexivity.

Lemma not_in_providers provider :
  provider ∉ providers ->
  provider <> "openai" /\ provider <> "gemini" /\ provider <> "claude" /\ provider <> "manus".
Proof. unfold providers. rewrite !not_elem_of_cons. tauto. Qed.

Lemma plain_id_path_ok name : plain_id name = true -> document_path_ok name = true.
Proof.
  unfold plain_id, document_path_ok. intros [_ H]%andb_true_iff.
  apply Nat.eqb_eq in H. by rewrite H.
Qed.

Lemma plain_id_accepts db name : plain_id name = true -> accepts db name = true.
Proof. intros H. destruct db; [|done]. by apply plain_id_path_ok. Qed.

(** C1 (as the code has it): for every provider, so for every valid
    (kind, provider) pair, and for a user name that is a plain document id,
    the advanced dispatch returns an entry whose [type] is
    ["text_{provider}"] for the text endpoint and
    ["{name}_generation_{provider}"] for the image, video, cartoon and
    voiceover endpoints, and persists it when a store is configured; the only
    exception it raises then is the 500 of the text and image endpoints when
    the provider is openai and the OpenAI key is not set.  On a configured
    store a user name with an odd number of "/" makes the client raise
    [ValueError] once the key check is passed, and nothing is stored. *)
Theorem dispatch_type_label svc now ep user prompt provider model cu db :
  (plain_id user = true ->
   if checks_key ep && not_ (OPENAI_API_KEY svc) && bool_decide (provider = "openai")
   then dispatch ep svc now user prompt provider model cu db
        = (Raise OpenAI_API_key_not_set, db)
   else exists entry,
     dispatch ep svc now user prompt provider model cu db
       = (Return (ok_entry entry), add_if_db db user entry)
     /\ entry !! "type" = Some (VStr (type_label ep provider)))
  /\ (is_Some db -> document_path_ok user = false ->
      dispatch ep svc now user prompt provider model cu db
      = (Raise (if checks_key ep && not_ (OPENAI_API_KEY svc)
                   && bool_decide (provider = "openai")
                then OpenAI_API_key_not_set else document_path_error), db)).
Proof.
  split.
  - intros Hid%(plain_id_accepts db).
    destruct ep; unfold_endpoints; rewrite Hid; cbn [checks_key andb];
      repeat case_match; simplify_eq; by_entry.
  - intros [fs ->] Hpath.
    destruct ep; unfold_endpoints; cbn [accepts checks_key andb]; rewrite Hpath;
      repeat case_match; simplify_eq; reflexivity.
Qed.

Lemma dispatch_type_label_witness :
  plain_id "alice" = true
  /\ exists entry,
       dispatch AVideo svc_with_key "t0" "alice" "a cat" "gemini" None alice (Some empty_store)
         = (Return (ok_entry entry), add_if_db (Some empty_store) "alice" entry)
       /\ entry !! "type" = Some (VStr (type_label AVideo "gemini")).
Proof.
  split; [reflexivity|].
  exact (proj1 (dispatch_type_label svc_with_key "t0" AVideo "alice" "a cat" "gemini" None
                  alice (Some empty_store)) eq_refl).
Defined.

(** C1, counterexample: on a configured store the image endpoint labels a
    gemini entry ["image_generation_gemini"], not ["image_gemini"]; the text
    endpoint raises for openai when the key is not set; and the video endpoint
    raises for the user name ["a/b"]. *)
Lemma dispatch_type_label_counterexample :
  (exists entry,
     dispatch AImage svc_with_key "t0" "alice" "a cat" "gemini" None alice (Some empty_store)
       = (Return (ok_entry entry), Some (history_add "alice" entry empty_store))
     /\ entry !! "type" = Some (VStr "image_generation_gemini")
     /\ entry !! "type" <> Some (VStr (spec_type AImage "gemini")))
  /\ dispatch AText svc_without_key "t0" "alice" "hi" "openai" None alice (Some empty_store)
     = (Raise OpenAI_API_key_not_set, Some empty_store)
  /\ dispatch AVideo svc_with_key "t0" "a/b" "a cat" "gemini" None alice (Some empty_store)
     = (Raise (ValueError "A document must have an even number of path elements"),
        Some empty_store).
Proof.
  split; [|split; reflexivity].
  eexists; split; [reflexivity|]. split; [reflexivity|]. vm_compute. discriminate.
Qed.

(** C2 (as the code has it): for a provider outside the recognized set and
    a user name that is a plain document id the dispatch does not raise and
    returns an entry; the text endpoint's [output] is
    ["[Unknown provider: {provider}]"], which carries the marker, and a media
    endpoint's [storage_url] is a placeholder stub URL that embeds the
    provider name.  On a configured store a user name with an odd number of
    "/" makes the client raise [ValueError] instead. *)
Theorem dispatch_unknown_provider svc now ep user prompt provider model cu db :
  provider ∉ providers ->
  (plain_id user = true ->
   exists entry,
     dispatch ep svc now user prompt provider model cu db
       = (Return (ok_entry entry), add_if_db db user entry)
     /\ str_field entry (payload_field ep) = Some (unknown_payload ep provider)
     /\ (ep = AText -> has_marker (unknown_payload ep provider) = true))
  /\ (is_Some db -> document_path_ok user = false ->
      dispatch ep svc now user prompt provider model cu db
      = (Raise document_path_error, db)).
Proof.
  intros (Ho & Hg & Hc & Hm)%not_in_providers. split.
  - intros Hid%(plain_id_accepts db).
    destruct ep; unfold_endpoints;
      rewrite Hid, ?(bool_decide_eq_false_2 _ Ho), ?andb_false_r;
      repeat case_decide; try done.
    all: eexists; split; [reflexivity|]; split; [reflexivity|]; try done.
  - intros [fs ->] Hpath.
    destruct ep; unfold_endpoints; cbn [accepts];
      rewrite ?(bool_decide_eq_false_2 _ Ho), ?andb_false_r;
      repeat case_decide; try done; cbn beta iota; rewrite Hpath; reflexivity.
Qed.

Lemma dispatch_unknown_provider_witness :
  ("mistral" ∉ providers) /\ plain_id "alice" = true /\
  exists entry,
    dispatch AText svc_with_key "t0" "alice" "hi" "mistral" None alice (Some empty_store)
      = (Return (ok_entry entry), add_if_db (Some empty_store) "alice" entry)
    /\ str_field entry (payload_field AText) = Some (unknown_payload AText "mistral")
    /\ (AText = AText -> has_marker (unknown_payload AText "mistral") = true).
Proof.
  assert (H : "mistral" ∉ providers) by (apply (bool_decide_unpack _); vm_compute; exact I).
  split; [exact H|]. split; [reflexivity|].
  exact (proj1 (dispatch_unknown_provider svc_with_key "t0" AText "alice" "hi" "mistral" None
                  alice (Some empty_store) H) eq_refl).
Defined.

(** C2, counterexample: for the unknown provider ["foo"], on a configured
    store, the image endpoint stores a stub URL in which neither "unknown" nor
    "error" appears. *)
Lemma dispatch_unknown_provider_counterexample :
  ("foo" ∉ providers) /\
  exists entry url,
    dispatch AImage svc_with_key "t0" "alice" "a cat" "foo" None alice (Some empty_store)
      = (Return (ok_entry entry), Some (history_add "alice" entry empty_store))
    /\ str_field entry "storage_url" = Some url
    /\ url = "https://placehold.co/400x300?text=foo+Image+Stub"
    /\ has_marker url = false.
Proof.
  split; [apply (bool_decide_unpack _); vm_compute; exact I|].
  eexists; eexists. split; [reflexivity|]. split; [reflexivity|]. split; reflexivity.
Qed.

(** ** Request-level errors of the generation endpoints *)

(** C3 (as the code has it): for a user name that is a plain document id,
    with the OpenAI key not set [/generate-text] and [/generate-image] raise
    the 500 for every request and the advanced text and image endpoints raise
    it exactly when the provider is openai; in every other case, and on the
    video, animation, cartoon and voiceover endpoints always, the handler
    returns an entry: the missing-key check is then the only request-level
    error a generation handler raises.  On a configured store a user name
    with an odd number of "/" makes every one of the nine handlers raise the
    client's [ValueError] where it would have returned. *)
Theorem generation_raises_only_without_key svc db :
  (forall ep now user prompt,
     plain_id user = true ->
     if legacy_checks_key ep && not_ (OPENAI_API_KEY svc)
     then legacy ep svc now user prompt db = (Raise OpenAI_API_key_not_set, db)
     else exists entry,
       legacy ep svc now user prompt db
         = (Return (ok_entry entry), add_if_db db user entry))
  /\ (forall ep now user prompt provider model cu,
     plain_id user = true ->
     if checks_key ep && not_ (OPENAI_API_KEY svc) && bool_decide (provider = "openai")
     then dispatch ep svc now user prompt provider model cu db
          = (Raise OpenAI_API_key_not_set, db)
     else exists entry,
       dispatch ep svc now user prompt provider model cu db
         = (Return (ok_entry entry), add_if_db db user entry))
  /\ (forall ep now user prompt,
     is_Some db -> document_path_ok user = false ->
     legacy ep svc now user prompt db
     = (Raise (if legacy_checks_key ep && not_ (OPENAI_API_KEY svc)
               then OpenAI_API_key_not_set else document_path_error), db))
  /\ (forall ep now user prompt provider model cu,
     is_Some db -> document_path_ok user = false ->
     dispatch ep svc now user prompt provider model cu db
     = (Raise (if checks_key ep && not_ (OPENAI_API_KEY svc)
                  && bool_decide (provider = "openai")
               then OpenAI_API_key_not_set else document_path_error), db)).
Proof.
  split; [|split; [|split]].
  - intros ep now user prompt Hid%(plain_id_accepts db).
    destruct ep; unfold_endpoints; rewrite ?Hid; cbn [legacy_checks_key andb];
      repeat case_match; simplify_eq; by_entry.
  - intros ep now user prompt provider model cu Hid%(plain_id_accepts db).
    destruct ep; unfold_endpoints; rewrite ?Hid; cbn [checks_key andb];
      repeat case_match; simplify_eq; by_entry.
  - intros ep now user prompt [fs ->] Hpath.
    destruct ep; unfold_endpoints; cbn [accepts legacy_checks_key andb]; rewrite ?Hpath;
      repeat case_match; simplify_eq; reflexivity.
  - intros ep now user prompt provider model cu [fs ->] Hpath.
    destruct ep; unfold_endpoints; cbn [accepts checks_key andb]; rewrite ?Hpath;
      repeat case_match; simplify_eq; reflexivity.
Qed.

Lemma generation_raises_only_without_key_witness :
  plain_id "alice" = true
  /\ exists entry,
       legacy LVideo svc_without_key "t0" "alice" "a cat" (Some empty_store)
       = (Return (ok_entry entry), add_if_db (Some empty_store) "alice" entry).
Proof.
  split; [reflexivity|].
  exact (proj1 (generation_raises_only_without_key svc_without_key (Some empty_store))
           LVideo "t0" "alice" "a cat" eq_refl).
Defined.

(** C3, counterexample: with no key set, on a configured store, an advanced
    text request to gemini returns an entry, and a plain image request fails
    with the 500 although it is not a text request. *)
Lemma generation_without_key_counterexample :
  not_ (OPENAI_API_KEY svc_without_key) = true
  /\ (exists entry,
        generate_text_advanced svc_without_key "t0" "alice" "hi" "gemini" None alice
                               (Some empty_store)
          = (Return (ok_entry entry), Some (history_add "alice" entry empty_store))
        /\ str_field entry "output" = Some "[Gemini] hi (stub)")
  /\ generate_image svc_without_key "t0" "alice" "a cat" (Some empty_store)
     = (Raise (HTTPException 500 "OpenAI API key not set"), Some empty_store).
Proof.
  split; [reflexivity|]. split; [|reflexivity].
  eexists; split; reflexivity.
Qed.

(** C4 (as the code has it): when the key is set, the OpenAI adapter raises
    [e] and the user name is a plain document id, the text endpoints return
    and persist an entry whose [output] is the error annotation, and the image
    endpoints an entry whose [storage_url] is the fixed placeholder URL and
    whose [prompt] carries the annotation in front of the original prompt.  No
    other adapter can raise: they are stubs that only build a string. *)
Theorem adapter_failure_is_degraded svc now user prompt model cu db e :
  not_ (OPENAI_API_KEY svc) = false ->
  plain_id user = true ->
  (chat_completions_create svc prompt = Throws e ->
     (exists entry,
        generate_text svc now user prompt db
          = (Return (ok_entry entry), add_if_db db user entry)
        /\ str_field entry "output" = Some ("[OpenAI error: " +:+ e +:+ "]")
        /\ str_field entry "prompt" = Some prompt)
     /\ (exists entry,
        dispatch AText svc now user prompt "openai" model cu db
          = (Return (ok_entry entry), add_if_db db user entry)
        /\ str_field entry "output" = Some ("[AI error: " +:+ e +:+ "]")
        /\ str_field entry "prompt" = Some prompt))
  /\ (images_generate svc prompt = Throws e ->
     (exists entry,
        generate_image svc now user prompt db
          = (Return (ok_entry entry), add_if_db db user entry)
        /\ str_field entry "storage_url" = Some "https://placehold.co/400x300?text=OpenAI+Error"
        /\ str_field entry "prompt" = Some ("[OpenAI error: " +:+ e +:+ "] " +:+ prompt))
     /\ (exists entry,
        dispatch AImage svc now user prompt "openai" model cu db
          = (Return (ok_entry entry), add_if_db db user entry)
        /\ str_field entry "storage_url" = Some "https://placehold.co/400x300?text=AI+Error"
        /\ str_field entry "prompt" = Some ("[AI error: " +:+ e +:+ "] " +:+ prompt))).
Proof.
  intros Hkey Hid%(plain_id_accepts db). split; intros Hup; split; unfold_endpoints;
    rewrite Hkey, Hup; cbn [andb]; rewrite Hid; by_entry.
Qed.

Lemma adapter_failure_is_degraded_witness :
  not_ (OPENAI_API_KEY svc_failing) = false
  /\ plain_id "alice" = true
  /\ chat_completions_create svc_failing "hi" = Throws "timeout"
  /\ exists entry,
       generate_text svc_failing "t0" "alice" "hi" (Some empty_store)
         = (Return (ok_entry entry), add_if_db (Some empty_store) "alice" entry)
       /\ str_field entry "output" = Some ("[OpenAI error: " +:+ "timeout" +:+ "]")
       /\ str_field entry "prompt" = Some "hi".
Proof.
  split; [reflexivity|]. split; [reflexivity|]. split; [reflexivity|].
  apply (adapter_failure_is_degraded svc_failing "t0" "alice" "hi" None alice
           (Some empty_store) "timeout"); reflexivity.
Defined.

(** C4, counterexample: the key is set, OpenAI raises, the store is
    configured and the user name is ["a/b"]: the failure is turned into the
    annotated output, but the request ends in the client's [ValueError] and
    returns no entry. *)
Lemma adapter_failure_counterexample :
  not_ (OPENAI_API_KEY svc_failing) = false
  /\ chat_completions_create svc_failing "hi" = Throws "timeout"
  /\ generate_text svc_failing "t0" "a/b" "hi" (Some empty_store)
     = (Raise (ValueError "A document must have an even number of path elements"),
        Some empty_store)
  /\ generate_image_advanced svc_failing "t0" "a/b" "hi" "openai" None alice
                             (Some empty_store)
     = (Raise (ValueError "A document must have an even number of path elements"),
        Some empty_store).
Proof. split; [reflexivity|]. split; [reflexivity|]. split; reflexivity. Qed.

(** ** The store gateway *)

(** C5, counterexample: with no store configured [/generate-text], which
    needs no token, completes with status ok, and the entry it built is stored
    nowhere. *)
Lemma store_unconfigured_counterexample :
  exists entry,
    generate_text svc_with_key "t0" "alice" "hi" None = (Return (ok_entry entry), None)
    /\ str_field entry "output" = Some "echo hi"
    /\ (handle svc_with_key (Generate LText "t0" "alice" "hi") None).1
       <> Raise Database_not_connected
    /\ api toy_crypto svc_with_key (Serve 0 "" (Generate LText "t0" "alice" "hi")) None
       = (Return (ok_entry entry), None).
Proof.
  eexists; split; [reflexivity|]. split; [reflexivity|]. split; [discriminate|reflexivity].
Qed.

(** ** Attribution of entries *)

(** C9: an advanced endpoint gives the same result whatever user document the
    bearer token resolved to; the entry it returns has the request body's
    [user] in its [user] field and is persisted in that user's history. *)
Theorem advanced_user_from_body svc now ep user prompt provider model cu1 cu2 db :
  dispatch ep svc now user prompt provider model cu1 db
    = dispatch ep svc now user prompt provider model cu2 db
  /\ match dispatch ep svc now user prompt provider model cu1 db with
     | (Return body, db') =>
       exists entry, body = ok_entry entry
         /\ entry !! "user" = Some (VStr user)
         /\ db' = history_add user entry <$> db
     | (Raise e, db') => db' = db
     end.
Proof.
  split; [by destruct ep|].
  destruct ep; unfold_endpoints; repeat case_match; simplify_eq; by_entry.
Qed.

(** ** Invariants of the history *)

Ltac media_tac :=
  unfold media_consistent; split;
  let Hv := fresh "Hv" in
  intros [? Hv];
  first [ by eexists | exfalso; vm_compute in Hv; discriminate Hv ].

Ltac wf_entry := split; [ media_tac | by eexists ].

Ltac writes_tac :=
  repeat case_match; simplify_eq;
  first
    [ left; reflexivity
    | right; left; eexists _, _; split; [reflexivity|]; split; reflexivity
    | right; right; eexists _, _, _; split; [reflexivity|]; split; [reflexivity|]; wf_entry ].

Lemma handle_writes svc r db :
  (handle svc r db).2 = db
  \/ (exists fs fs', db = Some fs /\ (handle svc r db).2 = Some fs' /\ history fs' = history fs)
  \/ (exists fs user entry,
        db = Some fs /\ (handle svc r db).2 = Some (history_add user entry fs)
        /\ well_formed_entry entry).
Proof.
  destruct db as [fs|].
  2: { left. destruct r as [| | |ep ? ? ?|ep ? ? ? ? ? ?| | | |]; try reflexivity;
       destruct ep; cbn [handle]; unfold_endpoints; repeat case_match; reflexivity. }
  destruct r as [| | |ep ? ? ?|ep ? ? ? ? ? ?| | | |]; cbn [handle].
  - unfold save_content. writes_tac.
  - unfold upload_media. writes_tac.
  - by left.
  - destruct ep; unfold_endpoints; cbn [add_if_db fmap option_fmap option_map]; writes_tac.
  - destruct ep; unfold_endpoints; cbn [add_if_db fmap option_fmap option_map]; writes_tac.
  - unfold create_quiz. writes_tac.
  - by left.
  - by left.
  - unfold submit_quiz. writes_tac.
Qed.

Lemma history_stream_add user entry fs user' entry' :
  entry' ∈ history_stream (history_add user entry fs) user' ->
  entry' = entry \/ entry' ∈ history_stream fs user'.
Proof.
  unfold history_add, history_stream at 1; cbn [history].
  destruct (decide (user = user')) as [->|Hne].
  - rewrite lookup_insert_eq. cbn. rewrite elem_of_app, list_elem_of_singleton. tauto.
  - rewrite lookup_insert_ne by done. tauto.
Qed.

Lemma history_stream_same fs fs' user :
  history fs' = history fs -> history_stream fs' user = history_stream fs user.
Proof. unfold history_stream. by intros ->. Qed.

(** A property of single entries that every written entry has is kept by
    every handler. *)
Lemma handle_keeps (P : dict -> Prop) svc r db :
  (forall entry, well_formed_entry entry -> P entry) ->
  (forall fs user entry, db = Some fs -> entry ∈ history_stream fs user -> P entry) ->
  forall fs user entry,
    (handle svc r db).2 = Some fs -> entry ∈ history_stream fs user -> P entry.
Proof.
  intros Hwf Hdb fs' user entry Hfs' Hin.
  destruct (handle_writes svc r db) as [Heq|[(fs & fs1 & -> & Heq & Hh)|(fs & u & e & -> & Heq & He)]].
  - rewrite Heq in Hfs'. eauto.
  - rewrite Heq in Hfs'. simplify_eq.
    rewrite (history_stream_same _ _ _ Hh) in Hin. eauto.
  - rewrite Heq in Hfs'. simplify_eq.
    apply history_stream_add in Hin as [->|Hin]; eauto.
Qed.

Lemma handle_consistent svc r db :
  history_consistent db -> history_consistent (handle svc r db).2.
Proof.
  intros Hdb fs user entry Hfs Hin.
  apply (handle_keeps media_consistent svc r db) with fs user; try done.
  by intros ? [? _].
Qed.

Lemma handle_timestamps svc r db :
  history_timestamps db -> history_timestamps (handle svc r db).2.
Proof.
  intros Hdb fs user Hfs. apply Forall_forall. intros entry Hin.
  apply (handle_keeps (fun k => is_Some (created_at_key k)) svc r db) with fs user; try done.
  - by intros ? [_ ?].
  - intros fs0 u e Hfs0 He. specialize (Hdb fs0 u Hfs0).
    unfold timestamps_are_strings in Hdb. rewrite Forall_forall in Hdb. auto.
Qed.

Lemma empty_store_consistent : history_consistent (Some empty_store).
Proof. intros fs user entry [= <-] Hin. by apply elem_of_nil in Hin. Qed.

(** From a store with string timestamps the handlers only reach stores with
    string timestamps, so [get_history] never compares a string with anything
    else. *)
Lemma reachable_timestamps svc db0 db :
  history_timestamps db0 -> reachable svc db0 db -> history_timestamps db.
Proof. intros H0 Hr. induction Hr; [done|]. by apply handle_timestamps. Qed.

(** C6: in every history the handlers can build from a consistent one (the
    empty one in particular), [media_type] is present exactly when
    [storage_url] is; and the entry a generation endpoint returns and persists
    has the [media_type] of its kind: none for text, ["audio"] for voiceover,
    the kind's name for image, video and animation (which the cartoon endpoint
    serves). *)
Theorem media_type_follows_kind svc :
  (forall db0 db,
     history_consistent db0 -> reachable svc db0 db -> history_consistent db)
  /\ (forall ep now user prompt db,
        match legacy ep svc now user prompt db with
        | (Return body, db') =>
          exists entry, body = ok_entry entry /\ db' = add_if_db db user entry
            /\ entry !! "media_type" = VStr <$> spec_media_type (legacy_kind ep)
            /\ media_consistent entry
        | (Raise _, db') => db' = db
        end)
  /\ (forall ep now user prompt provider model cu db,
        match dispatch ep svc now user prompt provider model cu db with
        | (Return body, db') =>
          exists entry, body = ok_entry entry /\ db' = add_if_db db user entry
            /\ entry !! "media_type" = VStr <$> spec_media_type (advanced_kind ep)
            /\ media_consistent entry
        | (Raise _, db') => db' = db
        end).
Proof.
  split; [|split].
  - intros db0 db H0 Hr. induction Hr; [done|]. by apply handle_consistent.
  - intros ep now user prompt db.
    destruct ep; unfold_endpoints; repeat case_match; simplify_eq; try done.
    all: eexists; split; [reflexivity|]; split; [reflexivity|]; split; [reflexivity|].
    all: media_tac.
  - intros ep now user prompt provider model cu db.
    destruct ep; unfold_endpoints; repeat case_match; simplify_eq; try done.
    all: eexists; split; [reflexivity|]; split; [reflexivity|]; split; [reflexivity|].
    all: media_tac.
Qed.

Lemma media_type_follows_kind_witness :
  history_consistent (Some empty_store)
  /\ reachable svc_with_key (Some empty_store)
       (handle svc_with_key (Generate LImage "t0" "alice" "a cat") (Some empty_store)).2
  /\ history_consistent
       (handle svc_with_key (Generate LImage "t0" "alice" "a cat") (Some empty_store)).2.
Proof.
  split; [exact empty_store_consistent|].
  split; [apply reachable_step, reachable_init|].
  apply (proj1 (media_type_follows_kind svc_with_key) (Some empty_store)).
  - exact empty_store_consistent.
  - apply reachable_step, reachable_init.
Defined.

(** ** History listing *)

Section StringOrder.

Lemma compare_not_Gt_trans a :
  forall b c,
    String.compare a b <> Gt -> String.compare b c <> Gt -> String.compare a c <> Gt.
Proof.
  induction a as [|x a IH]; intros [|y b] [|z c]; cbn; try congruence.
  unfold Ascii.compare.
  destruct (N.compare_spec (N_of_ascii x) (N_of_ascii y)) as [Hxy|Hxy|Hxy];
    destruct (N.compare_spec (N_of_ascii y) (N_of_ascii z)) as [Hyz|Hyz|Hyz];
    destruct (N.compare_spec (N_of_ascii x) (N_of_ascii z)) as [Hxz|Hxz|Hxz];
    try congruence; try lia; eauto.
Qed.

Lemma leb_not_Gt a b : String.leb a b = true <-> String.compare a b <> Gt.
Proof. unfold String.leb. destruct (String.compare a b); split; congruence. Qed.

Lemma leb_trans a b c :
  String.leb a b = true -> String.leb b c = true -> String.leb a c = true.
Proof. rewrite !leb_not_Gt. apply compare_not_Gt_trans. Qed.



Lemma leb_empty_l s : String.leb "" s = true.
Proof. by destruct s. Qed.


End StringOrder.

Section SortedReverse.

#[local] Instance key_ge_trans : Transitive key_ge.
Proof. intros a b c Hab Hbc. unfold key_ge in *. by eapply leb_trans. Qed.

Lemma insert_desc_perm x l : insert_desc x l ≡ₚ x :: l.
Proof.
  induction l as [|y l IH]; cbn; [done|].
  case_match; [|done]. rewrite IH. apply Permutation_swap.
Qed.

Lemma sorted_reverse_perm l : sorted_reverse l ≡ₚ l.
Proof.
  induction l as [|x l IH]; cbn; [done|].
  fold (sorted_reverse l). by rewrite insert_desc_perm, IH.
Qed.





End SortedReverse.





Example get_history_sample :
  get_history "alice" (Some sample_history)
  = Return (VList [VDict entry_new; VDict entry_old; VDict entry_untimed]).
Proof. reflexivity. Qed.

(** ** Quiz scoring *)

Lemma QuizQuestion_dict_answer q :
  QuizQuestion_dict q !! "answer" = Some (VInt (answer q)).
Proof. reflexivity. Qed.

Lemma zip_count_nil_r correct : zip_count correct [] = 0%nat.
Proof. by destruct correct. Qed.

Lemma score_loop_zip_count qs :
  forall idx answers correct,
    score_loop idx ((fun q => VDict (QuizQuestion_dict q)) <$> qs) answers correct
    = Return (correct + Z.of_nat (zip_count (answer <$> qs) (drop idx answers))).
Proof.
  induction qs as [|q qs IH]; intros idx answers correct; cbn [fmap list_fmap score_loop].
  { cbn. f_equal. lia. }
  case_bool_decide as Hidx.
  - destruct (lookup_lt_is_Some_2 answers idx Hidx) as [a Ha].
    rewrite (drop_S _ _ _ Ha), (nth_lookup_Some _ _ _ _ Ha), QuizQuestion_dict_answer.
    cbn [answer_eq zip_count]. case_bool_decide; rewrite IH; f_equal; lia.
  - rewrite IH, !drop_ge, !zip_count_nil_r by lia. done.
Qed.

Lemma length_filter_fmap_S (P : nat -> Prop) `{!forall i, Decision (P i)} l :
  length (filter P (S <$> l)) = length (filter (fun i => P (S i)) l).
Proof.
  induction l as [|i l IH]; [done|].
  rewrite fmap_cons, !filter_cons. repeat case_decide; cbn; try done; by rewrite IH.
Qed.

Lemma zip_count_filter correct :
  forall answers,
    zip_count correct answers
    = length (filter (fun i => nth i answers 0 = nth i correct 0)
                     (seq 0 (Nat.min (length answers) (length correct)))).
Proof.
  induction correct as [|c correct IH]; intros [|a answers];
    cbn [zip_count length Nat.min seq]; try done.
  rewrite filter_cons, <- fmap_S_seq. cbn [nth].
  case_bool_decide; case_decide; try done; cbn [length];
    by rewrite length_filter_fmap_S, IH.
Qed.

Lemma zip_count_positions qs answers :
  zip_count (answer <$> qs) answers = length (correct_positions qs answers).
Proof. unfold correct_positions. by rewrite zip_count_filter, length_fmap. Qed.

Lemma zip_count_take correct :
  forall answers, zip_count correct (take (length correct) answers) = zip_count correct answers.
Proof.
  induction correct as [|c correct IH]; intros [|a answers]; try done.
  cbn. by rewrite IH.
Qed.

Lemma elem_of_correct_positions qs answers i :
  i ∈ correct_positions qs answers
  <-> exists a q, answers !! i = Some a /\ qs !! i = Some q /\ a = answer q.
Proof.
  unfold correct_positions. rewrite list_elem_of_filter, elem_of_seq. split.
  - intros [Heq [_ Hi]].
    destruct (lookup_lt_is_Some_2 answers i) as [a Ha]; [lia|].
    destruct (lookup_lt_is_Some_2 qs i) as [q Hq]; [lia|].
    exists a, q. split; [done|]. split; [done|].
    rewrite (nth_lookup_Some _ _ _ _ Ha) in Heq.
    rewrite (nth_lookup_Some _ _ _ (answer q)) in Heq; [done|].
    by rewrite list_lookup_fmap, Hq.
  - intros (a & q & Ha & Hq & ->).
    pose proof (lookup_lt_Some _ _ _ Ha). pose proof (lookup_lt_Some _ _ _ Hq).
    split; [|lia].
    rewrite (nth_lookup_Some _ _ _ _ Ha).
    rewrite (nth_lookup_Some _ _ _ (answer q)); [done|].
    by rewrite list_lookup_fmap, Hq.
Qed.

(** C8 (as the code has it): for a stored quiz with [N] questions and a
    submission with [M] answers, the reported score is the number of positions
    [i < M], [i < N] whose answer equals the correct index of question [i],
    the reported total is [N], and answers beyond [N] change nothing and raise
    nothing.  A selected index outside the options of its question is not
    counted whenever the question's own correct index is one of its options. *)
Theorem submit_quiz_score now sub cu fs quiz qs username :
  quizzes fs !! quiz_id sub = Some quiz ->
  quiz !! "questions" = Some (questions_value qs) ->
  cu !! "username" = Some (VStr username) ->
  (submit_quiz now sub cu (Some fs)).1
    = Return (submitted (Z.of_nat (length (correct_positions qs (answers sub))))
                        (Z.of_nat (length qs)))
  /\ (forall i,
        i ∈ correct_positions qs (answers sub)
        <-> (i < length (answers sub))%nat /\ (i < length qs)%nat
            /\ answers sub !! i = answer <$> qs !! i)
  /\ (forall i q,
        i ∈ correct_positions qs (answers sub) -> qs !! i = Some q ->
        valid_option q (answer q) -> valid_option q (nth i (answers sub) 0))
  /\ (submit_quiz now {| quiz_id := quiz_id sub; answers := take (length qs) (answers sub) |}
                  cu (Some fs)).1
     = (submit_quiz now sub cu (Some fs)).1.
Proof.
  intros Hquiz Hqs Hcu.
  assert (Hrun : forall answers',
    (submit_quiz now {| quiz_id := quiz_id sub; answers := answers' |} cu (Some fs)).1
    = Return (submitted (Z.of_nat (zip_count (answer <$> qs) answers'))
                        (Z.of_nat (length qs)))).
  { intros answers'. unfold submit_quiz, questions_value in *. cbn [quiz_id answers].
    rewrite Hquiz, Hqs, score_loop_zip_count, Hcu, length_fmap. cbn [fst drop].
    by rewrite Z.add_0_l. }
  split; [|split; [|split]].
  - rewrite <- zip_count_positions. destruct sub as [id ans]. apply Hrun.
  - intros i. rewrite elem_of_correct_positions. split.
    + intros (a & q & Ha & Hq & ->). rewrite Ha, Hq.
      eauto using lookup_lt_Some.
    + intros (Hi & Hj & Heq).
      destruct (lookup_lt_is_Some_2 _ _ Hi) as [a Ha].
      destruct (lookup_lt_is_Some_2 _ _ Hj) as [q Hq].
      exists a, q. rewrite Ha, Hq in Heq. cbn in Heq. by simplify_eq.
  - intros i q (a & q' & Ha & Hq' & ->)%elem_of_correct_positions Hq Hvalid.
    simplify_eq. by rewrite (nth_lookup_Some _ _ _ _ Ha).
  - rewrite Hrun.
    replace (take (length qs) (answers sub))
      with (take (length (answer <$> qs)) (answers sub)) by (by rewrite length_fmap).
    rewrite zip_count_take. destruct sub as [id ans]. symmetry. apply Hrun.
Qed.

Lemma submit_quiz_score_witness :
  exists db,
    (create_quiz "t0" quiz_021 "q1" alice (Some empty_store)).2 = Some db
    /\ (submit_quiz "t1" {| quiz_id := "q1"; answers := [0; 1] |} bob (Some db)).1
       = Return (submitted 1 3).
Proof.
  eexists. split; [reflexivity|].
  refine (proj1 (submit_quiz_score "t1" {| quiz_id := "q1"; answers := [0; 1] |} bob _ _
                   (questions quiz_021) "bob" _ _ _)); reflexivity.
Defined.

(** C8, counterexample: a quiz can be created whose correct index 5 is outside
    its two options; the submission [[5]] then selects an index that is out of
    range and is counted as correct. *)
Lemma submit_quiz_score_counterexample :
  exists db q,
    (create_quiz "t0" quiz_bad_index "q1" alice (Some empty_store)).2 = Some db
    /\ questions quiz_bad_index = [q]
    /\ ~ valid_option q 5
    /\ (submit_quiz "t1" {| quiz_id := "q1"; answers := [5] |} bob (Some db)).1
       = Return (submitted 1 1).
Proof.
  eexists; eexists. split; [reflexivity|]. split; [reflexivity|].
  split; [|reflexivity]. unfold valid_option. cbn. lia.
Qed.

(** ** Quiz listing *)

Lemma list_quizzes_loop_fmap docs :
  list_quizzes_loop docs = (fun d => VDict (listed d.1 d.2)) <$> docs.
Proof.
  unfold list_quizzes_loop.
  assert (H : forall acc,
    foldl (fun result '(id, q) =>
             let d := <["id" := VStr id]> q in
             let d := delete "answer" d in
             result ++ [VDict d]) acc docs
    = acc ++ ((fun d => VDict (listed d.1 d.2)) <$> docs)).
  { induction docs as [|[id q] docs IH]; intros acc; cbn [foldl].
    - by rewrite app_nil_r.
    - rewrite IH, <- app_assoc. done. }
  apply H.
Qed.

Lemma listed_lookup id q k :
  k <> "id" -> k <> "answer" -> listed id q !! k = q !! k.
Proof. intros ? ?. unfold listed. by rewrite lookup_delete_ne, lookup_insert_ne. Qed.

(** [create_quiz] stores the questions with their answers and no top-level
    ["answer"] key. *)
Lemma create_quiz_stored now quiz id cu fs username :
  cu !! "username" = Some username ->
  exists q,
    (create_quiz now quiz id cu (Some fs)).2 = Some (quiz_set id q fs)
    /\ q !! "questions" = Some (questions_value (questions quiz))
    /\ q !! "answer" = None.
Proof.
  intros Hcu. unfold create_quiz. rewrite Hcu. eexists. split; [reflexivity|].
  split; reflexivity.
Qed.

(** C10: the listing returns one document per stored quiz, with the id
    added, every key other than a top-level ["answer"] unchanged, and so the
    [questions] list as stored: for a quiz holding the questions [qs] each
    listed question carries its correct-option index in ["answer"].  A quiz
    without a top-level ["answer"] key is returned whole. *)
Theorem list_quizzes_keeps_answers cu fs :
  exists ds,
    list_quizzes cu (Some fs) = Return (VList (VDict <$> ds))
    /\ length ds = size (quizzes fs)
    /\ forall id q,
         quizzes fs !! id = Some q ->
         exists d,
           d ∈ ds
           /\ d !! "id" = Some (VStr id)
           /\ d !! "questions" = q !! "questions"
           /\ (forall k, k <> "id" -> k <> "answer" -> d !! k = q !! k)
           /\ (q !! "answer" = None -> d = <["id" := VStr id]> q)
           /\ (forall qs,
                 q !! "questions" = Some (questions_value qs) ->
                 d !! "questions"
                   = Some (VList ((fun question => VDict (QuizQuestion_dict question)) <$> qs))
                 /\ Forall (fun question =>
                              QuizQuestion_dict question !! "answer"
                              = Some (VInt (answer question))) qs).
Proof.
  exists ((fun d => listed d.1 d.2) <$> map_to_list (quizzes fs)).
  split; [|split].
  - unfold list_quizzes. rewrite list_quizzes_loop_fmap, <- list_fmap_compose. done.
  - by rewrite length_fmap, length_map_to_list.
  - intros id q Hq. exists (listed id q).
    assert (Hqs : listed id q !! "questions" = q !! "questions")
      by (by apply listed_lookup).
    split; [|split; [|split; [|split; [|split]]]].
    + apply list_elem_of_fmap. exists (id, q). split; [done|].
      by apply elem_of_map_to_list.
    + unfold listed. by rewrite lookup_delete_ne, lookup_insert_eq.
    + exact Hqs.
    + intros k. apply listed_lookup.
    + intros Hno. unfold listed. apply delete_id. by rewrite lookup_insert_ne.
    + intros qs Hquestions. split; [by rewrite Hqs|].
      apply Forall_forall. intros question _. apply QuizQuestion_dict_answer.
Qed.

Lemma list_quizzes_keeps_answers_witness :
  exists db ds,
    (create_quiz "t0" quiz_021 "q1" alice (Some empty_store)).2 = Some db
    /\ list_quizzes bob (Some db) = Return (VList (VDict <$> ds))
    /\ length ds = size (quizzes db).
Proof.
  eexists.
  destruct (list_quizzes_keeps_answers bob
              (quiz_set "q1" (<["created_at" := VStr "t0"]>
                                (<["created_by" := VStr "alice"]> (Quiz_dict quiz_021)))
                        empty_store)) as (ds & Hlist & Hlen & _).
  exists ds. split; [reflexivity|]. split; [exact Hlist|exact Hlen].
Defined.

Example list_quizzes_sample :
  list_quizzes bob (create_quiz "t0" quiz_021 "q1" alice (Some empty_store)).2
  = Return (VList [VDict {[ "id" := VStr "q1";
                            "title" := VStr "sample";
                            "questions" := questions_value (questions quiz_021);
                            "created_by" := VStr "alice";
                            "created_at" := VStr "t0" ]}]).
Proof. vm_compute. reflexivity. Qed.

(** * Further properties *)

(** ** What a request can do to the store *)

Lemma history_stream_add_eq user entry fs user' :
  history_stream (history_add user entry fs) user'
  = if decide (user' = user) then history_stream fs user ++ [entry]
    else history_stream fs user'.
Proof.
  unfold history_add, history_stream at 1; cbn [history].
  case_decide as Hu.
  - subst. by rewrite lookup_insert_eq.
  - by rewrite lookup_insert_ne.
Qed.

Lemma handle_unconfigured svc r : (handle svc r None).2 = None.
Proof.
  destruct r as [| | |ep ? ? ?|ep ? ? ? ? ? ?| | | |]; try reflexivity;
    destruct ep; cbn [handle]; unfold_endpoints; repeat case_match; reflexivity.
Qed.

(** The whole effect of a handler on a configured store: nothing, or, when
    it returns, one entry appended to one history, one quiz document written
    by [create_quiz], or one result appended by [submit_quiz]. *)
Lemma handle_effect svc r fs :
  let out := handle svc r (Some fs) in
  out.2 = Some fs
  \/ (exists body, out.1 = Return body)
     /\ ((exists user entry, out.2 = Some (history_add user entry fs))
         \/ (exists id q now quiz cu,
               r = CreateQuiz now quiz id cu /\ out.2 = Some (quiz_set id q fs))
         \/ (exists user res now sub cu,
               r = SubmitQuiz now sub cu /\ out.2 = Some (quiz_results_add user res fs))).
Proof.
  destruct r as [| | |ep ? ? ?|ep ? ? ? ? ? ?| | | |]; cbn [handle].
  - unfold save_content. repeat case_match; simplify_eq; eauto 10.
  - unfold upload_media. repeat case_match; simplify_eq; eauto 10.
  - eauto.
  - destruct ep; unfold_endpoints; cbn [add_if_db fmap option_fmap option_map];
      repeat case_match; simplify_eq; eauto 10.
  - destruct ep; unfold_endpoints; cbn [add_if_db fmap option_fmap option_map];
      repeat case_match; simplify_eq; eauto 10.
  - unfold create_quiz. repeat case_match; simplify_eq; eauto 15.
  - eauto.
  - eauto.
  - unfold submit_quiz. repeat case_match; simplify_eq; eauto 15.
Qed.

(** X1: on a configured store every handler leaves the store configured and
    the histories append-only: either no history changes, or one user's
    history gets one entry at its end and every other history is as before. *)
Theorem handle_append_only svc r fs :
  exists fs',
    (handle svc r (Some fs)).2 = Some fs'
    /\ ((forall user, history_stream fs' user = history_stream fs user)
        \/ exists u entry, forall user,
             history_stream fs' user
             = if decide (user = u) then history_stream fs u ++ [entry]
               else history_stream fs user).
Proof.
  destruct (handle_effect svc r fs)
    as [H|[_ [(u & e & H)|[(id & q & ? & ? & ? & _ & H)|(u & res & ? & ? & ? & _ & H)]]]];
    eexists; (split; [exact H|]).
  - by left.
  - right. exists u, e. intros user. apply history_stream_add_eq.
  - by left.
  - by left.
Qed.

(** X2: a handler that raises leaves the store exactly as it was, whether
    the store is configured or not. *)
Theorem handle_raise_unchanged svc r db :
  match (handle svc r db).1 with
  | Raise _ => (handle svc r db).2 = db
  | Return _ => True
  end.
Proof.
  destruct db as [fs|].
  - destruct (handle_effect svc r fs) as [H|[[body Hb] _]].
    + by case_match.
    + cbn zeta in Hb. by rewrite Hb.
  - case_match; [done|]. apply handle_unconfigured.
Qed.

(** X3: quiz documents are written by [create_quiz] only, one document per
    call, and quiz results by [submit_quiz] only; every other request leaves
    both collections as they were. *)
Theorem handle_quiz_collections svc r fs :
  exists fs',
    (handle svc r (Some fs)).2 = Some fs'
    /\ (quizzes fs' = quizzes fs
        \/ exists now quiz id cu q,
             r = CreateQuiz now quiz id cu /\ quizzes fs' = <[id := q]> (quizzes fs))
    /\ (quiz_results fs' = quiz_results fs
        \/ exists now sub cu, r = SubmitQuiz now sub cu).
Proof.
  destruct (handle_effect svc r fs)
    as [H|[_ [(u & e & H)|[(id & q & ? & ? & ? & -> & H)|(u & res & ? & ? & ? & -> & H)]]]];
    eexists; (split; [exact H|]); cbn; eauto 10.
Qed.

(** ** Writing an entry and reading it back *)

Lemma get_history_run user fs :
  timestamps_are_strings (history_stream fs user) ->
  get_history user (Some fs)
  = Return (VList (VDict <$> sorted_reverse (history_stream fs user))).
Proof.
  intros Hts. unfold get_history. case_match eqn:Hall; [done|].
  apply not_true_iff_false in Hall. destruct Hall.
  apply forallb_forall. intros k Hk. apply bool_decide_eq_true_2.
  unfold timestamps_are_strings in Hts. rewrite Forall_forall in Hts.
  apply Hts. by apply list_elem_of_In.
Qed.

Lemma get_history_add user entry fs :
  timestamps_are_strings (history_stream fs user) ->
  is_Some (created_at_key entry) ->
  get_history user (Some (history_add user entry fs))
  = Return (VList (VDict <$> sorted_reverse (history_stream fs user ++ [entry]))).
Proof.
  intros Hts He. rewrite get_history_run; rewrite history_stream_add_eq, decide_True by done.
  - done.
  - apply Forall_app. split; [done|]. by constructor.
Qed.

Lemma sorted_reverse_snoc_perm l entry : sorted_reverse (l ++ [entry]) ≡ₚ entry :: l.
Proof. rewrite sorted_reverse_perm. by rewrite Permutation_app_comm. Qed.

(** An entry newer than everything stored comes out first. *)
Lemma sorted_reverse_snoc_newest l entry :
  Forall (fun k => String.ltb (sort_key k) (sort_key entry) = true) l ->
  sorted_reverse (l ++ [entry]) = entry :: sorted_reverse l.
Proof.
  unfold sorted_reverse. rewrite foldr_app. cbn [foldr insert_desc].
  induction 1 as [|x l Hx Hl IH]; [done|].
  cbn [foldr]. rewrite IH. cbn [insert_desc]. by rewrite Hx.
Qed.




(** What a generation endpoint returns on a configured store: an error
    with the store untouched, or an entry stamped [now] for the body's
    [user], appended to that user's history. *)
Lemma dispatch_outcome svc ep now user prompt provider model cu fs :
  (exists e, dispatch ep svc now user prompt provider model cu (Some fs)
             = (Raise e, Some fs))
  \/ exists entry,
       dispatch ep svc now user prompt provider model cu (Some fs)
         = (Return (ok_entry entry), Some (history_add user entry fs))
       /\ entry !! "created_at" = Some (VStr now)
       /\ entry !! "user" = Some (VStr user).
Proof.
  destruct ep; unfold_endpoints; repeat case_match; simplify_eq; eauto.
  all: right; eexists; split; [reflexivity|]; split; reflexivity.
Qed.

Lemma legacy_outcome svc ep now user prompt fs :
  (exists e, legacy ep svc now user prompt (Some fs) = (Raise e, Some fs))
  \/ exists entry,
       legacy ep svc now user prompt (Some fs)
         = (Return (ok_entry entry), Some (history_add user entry fs))
       /\ entry !! "created_at" = Some (VStr now)
       /\ entry !! "user" = Some (VStr user).
Proof.
  destruct ep; unfold_endpoints; repeat case_match; simplify_eq; eauto.
  all: right; eexists; split; [reflexivity|]; split; reflexivity.
Qed.

Lemma created_at_key_str entry now :
  entry !! "created_at" = Some (VStr now) -> created_at_key entry = Some now.
Proof. unfold created_at_key. by intros ->. Qed.

Lemma sort_key_str entry now :
  entry !! "created_at" = Some (VStr now) -> sort_key entry = now.
Proof. unfold sort_key. by intros ->%created_at_key_str. Qed.

Lemma listed_with_add fs user entry now :
  timestamps_are_strings (history_stream fs user) ->
  entry !! "created_at" = Some (VStr now) ->
  listed_with fs user entry (Some (history_add user entry fs)).
Proof.
  intros Hts Hnow. eexists. split; [|split].
  - apply get_history_add; [done|]. rewrite (created_at_key_str _ _ Hnow). by eexists.
  - apply sorted_reverse_snoc_perm.
  - apply sorted_reverse_snoc_newest.
Qed.

(** X4: on a configured store whose timestamps are strings, the entry a
    generation endpoint (plain or advanced) returns is in the next listing of
    the body's [user], once, together with everything stored before; when its
    timestamp is later than every stored one it is the first of the listing.
    A request that raises leaves the listing as it was. *)
Theorem generated_entry_listed svc now user prompt fs :
  timestamps_are_strings (history_stream fs user) ->
  (forall ep,
     match legacy ep svc now user prompt (Some fs) with
     | (Return body, db') =>
       exists entry, body = ok_entry entry /\ sort_key entry = now
                     /\ listed_with fs user entry db'
     | (Raise _, db') => get_history user db' = get_history user (Some fs)
     end)
  /\ (forall ep provider model cu,
     match dispatch ep svc now user prompt provider model cu (Some fs) with
     | (Return body, db') =>
       exists entry, body = ok_entry entry /\ sort_key entry = now
                     /\ listed_with fs user entry db'
     | (Raise _, db') => get_history user db' = get_history user (Some fs)
     end).
Proof.
  intros Hts. split.
  - intros ep. destruct (legacy_outcome svc ep now user prompt fs)
      as [[e ->]|(entry & -> & Hnow & _)]; [done|].
    exists entry. eauto using sort_key_str, listed_with_add.
  - intros ep provider model cu.
    destruct (dispatch_outcome svc ep now user prompt provider model cu fs)
      as [[e ->]|(entry & -> & Hnow & _)]; [done|].
    exists entry. eauto using sort_key_str, listed_with_add.
Qed.

Lemma generated_entry_listed_witness :
  timestamps_are_strings (history_stream sample_history "alice")
  /\ match dispatch AText svc_with_key "2024-05-01T00:00:00" "alice" "hi" "gemini" None bob
             (Some sample_history) with
     | (Return body, db') =>
       exists entry, body = ok_entry entry /\ sort_key entry = "2024-05-01T00:00:00"
                     /\ listed_with sample_history "alice" entry db'
     | (Raise _, db') => get_history "alice" db' = get_history "alice" (Some sample_history)
     end.
Proof.
  assert (H : timestamps_are_strings (history_stream sample_history "alice"))
    by (repeat constructor; by eexists).
  split; [exact H|].
  exact (proj2 (generated_entry_listed svc_with_key "2024-05-01T00:00:00" "alice" "hi"
                  sample_history H) AText "gemini" None bob).
Defined.

(** X5: [save_content] files the entry in the history of the authenticated
    user, whatever [user] the body names, keeps the body's four fields and
    stamps [created_at]; the next listing of the authenticated user contains
    it together with everything stored before. *)
Theorem save_content_listed now data cu username fs :
  cu !! "username" = Some (VStr username) ->
  timestamps_are_strings (history_stream fs username) ->
  exists entry,
    save_content now data cu (Some fs)
      = (Return (VDict {[ "status" := VStr "saved"; "entry" := VDict entry ]}),
         Some (history_add username entry fs))
    /\ entry = <["created_at" := VStr now]> (Content_dict data)
    /\ entry !! "user" = Some (VStr (c_user data))
    /\ listed_with fs username entry (Some (history_add username entry fs))
    /\ (forall other, other <> username ->
          history_stream (history_add username entry fs) other = history_stream fs other).
Proof.
  intros Hcu Hts. eexists. unfold save_content. rewrite Hcu.
  split; [reflexivity|]. split; [reflexivity|]. split; [reflexivity|]. split.
  - by eapply listed_with_add.
  - intros other Hother. by rewrite history_stream_add_eq, decide_False.
Qed.

Lemma save_content_listed_witness :
  alice !! "username" = Some (VStr "alice")
  /\ timestamps_are_strings (history_stream empty_store "alice")
  /\ exists entry,
       save_content "t0" {| c_user := "bob"; c_prompt := "p"; c_output := "o"; c_type := "text" |}
                    alice (Some empty_store)
         = (Return (VDict {[ "status" := VStr "saved"; "entry" := VDict entry ]}),
            Some (history_add "alice" entry empty_store))
       /\ entry !! "user" = Some (VStr "bob").
Proof.
  assert (H1 : alice !! "username" = Some (VStr "alice")) by reflexivity.
  assert (H2 : timestamps_are_strings (history_stream empty_store "alice")) by constructor.
  split; [exact H1|]. split; [exact H2|].
  destruct (save_content_listed "t0"
              {| c_user := "bob"; c_prompt := "p"; c_output := "o"; c_type := "text" |}
              alice "alice" empty_store H1 H2) as (entry & Hrun & _ & Huser & _).
  exists entry. split; [exact Hrun|exact Huser].
Defined.



(** ** Uploads *)

(** X7: [upload_media] on a configured store.  A content type that starts
    with neither ["image/"] nor ["video/"] is refused with a 400; a failing
    upload gives a 500 that quotes the failure; a user name with an odd number
    of "/" gives, after the upload went through, a 500 that quotes the
    client's [ValueError]; in all three cases nothing is written to the
    history.  Otherwise the response carries the blob's public URL and the
    same URL is stored, with the caller's [media_type], in the history of
    [user]. *)
Theorem upload_media_outcome svc now_name now user title0 media_type content_type
    file_name prompt fs :
  let filename := user +:+ "/" +:+ media_type +:+ "/" +:+ now_name +:+ "_" +:+ file_name in
  let accepted := String.prefix "image/" content_type || String.prefix "video/" content_type in
  match upload_media svc now_name now user title0 media_type content_type file_name prompt
                     (Some fs) with
  | (Return body, db') =>
    accepted = true
    /\ document_path_ok user = true
    /\ exists url entry,
         blob_upload svc filename = Returns url
         /\ body = VDict {[ "status" := VStr "uploaded"; "filename" := VStr filename;
                            "url" := VStr url ]}
         /\ db' = Some (history_add user entry fs)
         /\ str_field entry "storage_url" = Some url
         /\ str_field entry "media_type" = Some media_type
         /\ str_field entry "created_at" = Some now
  | (Raise e, db') =>
    db' = Some fs
    /\ if accepted
       then (exists msg, blob_upload svc filename = Throws msg
                         /\ e = HTTPException 500 ("Failed to upload file: " +:+ msg))
            \/ (exists url, blob_upload svc filename = Returns url
                            /\ document_path_ok user = false
                            /\ e = HTTPException 500
                                     ("Failed to upload file: " +:+
                                      "A document must have an even number of path elements"))
       else e = HTTPException 400 "Invalid file type. Only images and videos are allowed."
  end.
Proof.
  cbn zeta. unfold upload_media.
  destruct (String.prefix "image/" content_type || String.prefix "video/" content_type);
    cbn [negb]; [|done].
  destruct (blob_upload svc _) as [url|msg]; cbn beta iota zeta.
  - destruct (document_path_ok user) eqn:Hpath.
    + split; [done|]. split; [done|]. eexists _, _. split; [reflexivity|].
      split; [reflexivity|]. split; [reflexivity|]. split; [reflexivity|].
      split; reflexivity.
    + split; [done|]. right. by eexists.
  - split; [done|]. left. by eexists.
Qed.

(** ** Quizzes *)

Lemma pop_answers_questions qs :
  pop_answers ((fun q => VDict (QuizQuestion_dict q)) <$> qs)
  = Return ((fun q => VDict (delete "answer" (QuizQuestion_dict q))) <$> qs).
Proof.
  induction qs as [|q qs IH]; [done|].
  cbn [fmap list_fmap pop_answers pop_answer]. cbn [fmap list_fmap] in IH. by rewrite IH.
Qed.

(** X8: [get_quiz] on a stored quiz returns it with the id added and with
    every question stripped of its ["answer"], the question text and the
    options being kept; every other field of the quiz is returned as stored.
    The stored document is not touched. *)
Theorem get_quiz_hides_answers id cu fs quiz qs :
  quizzes fs !! id = Some quiz ->
  quiz !! "questions" = Some (questions_value qs) ->
  exists d shown,
    get_quiz id cu (Some fs) = Return (VDict d)
    /\ d !! "id" = Some (VStr id)
    /\ d !! "questions" = Some (VList (VDict <$> shown))
    /\ Forall2 (fun q s =>
                  s !! "answer" = None
                  /\ s !! "question" = Some (VStr (question q))
                  /\ s !! "options" = Some (VList (VStr <$> options q))) qs shown
    /\ (forall k, k <> "id" -> k <> "questions" -> d !! k = quiz !! k).
Proof.
  intros Hquiz Hqs. unfold questions_value in Hqs.
  exists (<["id" := VStr id]>
            (<["questions" := VList ((fun q => VDict (delete "answer" (QuizQuestion_dict q)))
                                       <$> qs)]> quiz)),
         ((fun q => delete "answer" (QuizQuestion_dict q)) <$> qs).
  split; [|split; [|split; [|split]]].
  - unfold get_quiz. by rewrite Hquiz, Hqs, pop_answers_questions.
  - by rewrite lookup_insert_eq.
  - rewrite lookup_insert_ne, lookup_insert_eq by done. by rewrite <- list_fmap_compose.
  - apply Forall2_fmap_r, Forall_Forall2_diag, Forall_forall. intros q _.
    split; [|split]; reflexivity.
  - intros k Hid Hq. by rewrite !lookup_insert_ne.
Qed.

Lemma get_quiz_hides_answers_witness :
  exists fs quiz d shown,
    (create_quiz "t0" quiz_021 "q1" alice (Some empty_store)).2 = Some fs
    /\ quizzes fs !! "q1" = Some quiz
    /\ quiz !! "questions" = Some (questions_value (questions quiz_021))
    /\ get_quiz "q1" bob (Some fs) = Return (VDict d)
    /\ d !! "questions" = Some (VList (VDict <$> shown)).
Proof.
  eexists _, _.
  assert (H1 : quizzes (quiz_set "q1"
                 (<["created_at" := VStr "t0"]>
                    (<["created_by" := VStr "alice"]> (Quiz_dict quiz_021))) empty_store)
               !! "q1"
               = Some (<["created_at" := VStr "t0"]>
                         (<["created_by" := VStr "alice"]> (Quiz_dict quiz_021))))
    by reflexivity.
  assert (H2 : (<["created_at" := VStr "t0"]>
                  (<["created_by" := VStr "alice"]> (Quiz_dict quiz_021)) : dict)
               !! "questions" = Some (questions_value (questions quiz_021)))
    by reflexivity.
  destruct (get_quiz_hides_answers "q1" bob _ _ _ H1 H2) as (d & shown & Hrun & _ & Hq & _).
  exists d, shown. split; [reflexivity|]. split; [exact H1|]. split; [exact H2|].
  split; [exact Hrun|exact Hq].
Defined.

(** X9: for a plain document id under which no quiz is stored, [get_quiz]
    and [submit_quiz] answer 404 and write nothing, whatever was submitted. *)
Theorem quiz_not_found now sub id cu fs :
  plain_id id = true ->
  quizzes fs !! id = None ->
  quiz_id sub = id ->
  get_quiz id cu (Some fs) = Raise (HTTPException 404 "Quiz not found")
  /\ submit_quiz now sub cu (Some fs)
     = (Raise (HTTPException 404 "Quiz not found"), Some fs).
Proof.
  intros _ Hnone <-. unfold get_quiz, submit_quiz. by rewrite Hnone.
Qed.

Lemma quiz_not_found_witness :
  plain_id "nope" = true
  /\ quizzes empty_store !! "nope" = None
  /\ quiz_id {| quiz_id := "nope"; answers := [1; 2] |} = "nope"
  /\ get_quiz "nope" alice (Some empty_store) = Raise (HTTPException 404 "Quiz not found")
  /\ submit_quiz "t0" {| quiz_id := "nope"; answers := [1; 2] |} alice (Some empty_store)
     = (Raise (HTTPException 404 "Quiz not found"), Some empty_store).
Proof.
  split; [reflexivity|]. split; [reflexivity|]. split; [reflexivity|].
  apply (quiz_not_found "t0" {| quiz_id := "nope"; answers := [1; 2] |} "nope" alice
           empty_store); reflexivity.
Defined.

(** X10: [create_quiz] stores the quiz under the generated id with
    [created_by] set to the authenticated user's name and [created_at] to the
    clock, whatever the body said for either, keeps the title and the
    questions with their answers, and leaves every other quiz alone. *)
Theorem create_quiz_stores now quiz id cu username fs :
  cu !! "username" = Some (VStr username) ->
  exists q,
    create_quiz now quiz id cu (Some fs)
      = (Return (VDict {[ "status" := VStr "created"; "quiz_id" := VStr id ]}),
         Some (quiz_set id q fs))
    /\ q !! "created_by" = Some (VStr username)
    /\ q !! "created_at" = Some (VStr now)
    /\ q !! "title" = Some (VStr (title quiz))
    /\ q !! "questions" = Some (questions_value (questions quiz))
    /\ quizzes (quiz_set id q fs) !! id = Some q
    /\ (forall other, other <> id ->
          quizzes (quiz_set id q fs) !! other = quizzes fs !! other).
Proof.
  intros Hcu. unfold create_quiz. rewrite Hcu. eexists.
  split; [reflexivity|]. split; [reflexivity|]. split; [reflexivity|].
  split; [reflexivity|]. split; [reflexivity|]. cbn [quiz_set quizzes]. split.
  - by rewrite lookup_insert_eq.
  - intros other Hother. by rewrite lookup_insert_ne.
Qed.

Lemma create_quiz_stores_witness :
  alice !! "username" = Some (VStr "alice")
  /\ exists q,
       create_quiz "t0" {| title := "t"; questions := []; created_by := "mallory";
                           created_at := Some "1999" |} "q7" alice (Some empty_store)
         = (Return (VDict {[ "status" := VStr "created"; "quiz_id" := VStr "q7" ]}),
            Some (quiz_set "q7" q empty_store))
       /\ q !! "created_by" = Some (VStr "alice")
       /\ q !! "created_at" = Some (VStr "t0").
Proof.
  assert (H : alice !! "username" = Some (VStr "alice")) by reflexivity.
  split; [exact H|].
  destruct (create_quiz_stores "t0" {| title := "t"; questions := []; created_by := "mallory";
                                       created_at := Some "1999" |} "q7" alice "alice"
              empty_store H) as (q & Hrun & Hby & Hat & _).
  exists q. split; [exact Hrun|]. split; [exact Hby|exact Hat].
Defined.

(** ** Scores *)

Lemma sample_quiz_stored : quizzes sample_quiz_store !! "q1" = Some sample_quiz.
Proof. reflexivity. Qed.

Lemma sample_quiz_questions :
  sample_quiz !! "questions" = Some (questions_value (questions quiz_021)).
Proof. reflexivity. Qed.

Lemma bob_username : bob !! "username" = Some (VStr "bob").
Proof. reflexivity. Qed.

Lemma sample_quiz_created :
  (create_quiz "t0" quiz_021 "q1" alice (Some empty_store)).2 = Some sample_quiz_store.
Proof. reflexivity. Qed.

(** The run of [submit_quiz] on a stored quiz, for a user document that has
    a name. *)
Lemma submit_quiz_run now sub cu fs quiz qs username :
  quizzes fs !! quiz_id sub = Some quiz ->
  quiz !! "questions" = Some (questions_value qs) ->
  cu !! "username" = Some (VStr username) ->
  let score := Z.of_nat (zip_count (answer <$> qs) (answers sub)) in
  let total := Z.of_nat (length qs) in
  submit_quiz now sub cu (Some fs)
  = (Return (submitted score total),
     Some (quiz_results_add username
             {[ "user" := VStr username; "quiz_id" := VStr (quiz_id sub);
                "score" := VInt score; "total" := VInt total;
                "submitted_at" := VStr now;
                "answers" := VList (VInt <$> answers sub) ]} fs)).
Proof.
  intros Hquiz Hqs Hcu. unfold submit_quiz, questions_value in *.
  rewrite Hquiz, Hqs, score_loop_zip_count, Hcu, length_fmap. cbn [drop].
  by rewrite Z.add_0_l.
Qed.

Lemma zip_count_le correct :
  forall answers,
    (zip_count correct answers <= Nat.min (length answers) (length correct))%nat.
Proof.
  induction correct as [|c correct IH]; intros [|a answers]; cbn [zip_count length]; try lia.
  specialize (IH answers). case_bool_decide; lia.
Qed.

Lemma zip_count_full correct :
  forall answers,
    zip_count correct answers = length correct <-> take (length correct) answers = correct.
Proof.
  induction correct as [|c correct IH]; intros [|a answers]; cbn [zip_count length take];
    try done.
  pose proof (zip_count_le correct answers) as Hle. specialize (IH answers).
  case_bool_decide as Hac; split.
  - intros Hn. f_equal; [done|]. apply IH. lia.
  - intros [= _ Ht]. apply IH in Ht. lia.
  - lia.
  - intros [= ? _]. done.
Qed.

(** X11: the score [submit_quiz] reports for a stored quiz lies between 0
    and the smaller of the number of answers and the number of questions, so
    it never exceeds the reported total. *)
Theorem submit_quiz_score_bounds now sub cu fs quiz qs username :
  quizzes fs !! quiz_id sub = Some quiz ->
  quiz !! "questions" = Some (questions_value qs) ->
  cu !! "username" = Some (VStr username) ->
  exists score,
    (submit_quiz now sub cu (Some fs)).1 = Return (submitted score (Z.of_nat (length qs)))
    /\ 0 <= score <= Z.of_nat (Nat.min (length (answers sub)) (length qs))
    /\ score <= Z.of_nat (length qs).
Proof.
  intros Hquiz Hqs Hcu. eexists.
  rewrite (submit_quiz_run _ _ _ _ _ _ _ Hquiz Hqs Hcu). split; [reflexivity|].
  pose proof (zip_count_le (answer <$> qs) (answers sub)) as H.
  rewrite length_fmap in H. lia.
Qed.

Lemma submit_quiz_score_bounds_witness :
  exists fs score,
    (create_quiz "t0" quiz_021 "q1" alice (Some empty_store)).2 = Some fs
    /\ (submit_quiz "t1" {| quiz_id := "q1"; answers := [0; 2; 1; 7; 7] |} bob (Some fs)).1
       = Return (submitted score 3)
    /\ 0 <= score <= 3.
Proof.
  eexists.
  destruct (submit_quiz_score_bounds "t1" {| quiz_id := "q1"; answers := [0; 2; 1; 7; 7] |}
              bob
              sample_quiz_store
              sample_quiz (questions quiz_021) "bob"
              sample_quiz_stored sample_quiz_questions bob_username)
    as (score & Hrun & [Hlo _] & Hle).
  exists score. split; [exact sample_quiz_created|]. split; [exact Hrun|].
  split; [exact Hlo|exact Hle].
Defined.

(** X12: the reported score equals the reported total exactly when the
    first [N] answers are the [N] correct indices in order; a submission
    shorter than the quiz never gets full marks on a quiz with questions, and
    an empty submission scores 0. *)
Theorem submit_quiz_full_marks now sub cu fs quiz qs username :
  quizzes fs !! quiz_id sub = Some quiz ->
  quiz !! "questions" = Some (questions_value qs) ->
  cu !! "username" = Some (VStr username) ->
  exists score,
    (submit_quiz now sub cu (Some fs)).1 = Return (submitted score (Z.of_nat (length qs)))
    /\ (score = Z.of_nat (length qs) <-> take (length qs) (answers sub) = answer <$> qs)
    /\ ((length (answers sub) < length qs)%nat -> score < Z.of_nat (length qs))
    /\ (answers sub = [] -> score = 0).
Proof.
  intros Hquiz Hqs Hcu. eexists.
  rewrite (submit_quiz_run _ _ _ _ _ _ _ Hquiz Hqs Hcu). split; [reflexivity|].
  pose proof (zip_count_le (answer <$> qs) (answers sub)) as Hle.
  pose proof (zip_count_full (answer <$> qs) (answers sub)) as Hfull.
  rewrite length_fmap in Hle, Hfull. split; [|split].
  - rewrite <- Hfull. lia.
  - lia.
  - intros ->. by rewrite zip_count_nil_r.
Qed.

Lemma submit_quiz_full_marks_witness :
  exists fs,
    (create_quiz "t0" quiz_021 "q1" alice (Some empty_store)).2 = Some fs
    /\ (submit_quiz "t1" {| quiz_id := "q1"; answers := [0; 2; 1] |} bob (Some fs)).1
       = Return (submitted 3 3).
Proof.
  eexists. split; [exact sample_quiz_created|].
  destruct (submit_quiz_full_marks "t1" {| quiz_id := "q1"; answers := [0; 2; 1] |} bob
              sample_quiz_store
              sample_quiz (questions quiz_021) "bob"
              sample_quiz_stored sample_quiz_questions bob_username)
    as (score & Hrun & Hfull & _).
  rewrite Hrun. f_equal. f_equal. apply Hfull. reflexivity.
Defined.

(** X13: [submit_quiz] files one result at the end of the results of the
    authenticated user, holding the quiz id, the score and total it reports
    and the answers as submitted; quizzes, histories and the results of every
    other user stay as they were. *)
Theorem submit_quiz_recorded now sub cu fs quiz qs username :
  quizzes fs !! quiz_id sub = Some quiz ->
  quiz !! "questions" = Some (questions_value qs) ->
  cu !! "username" = Some (VStr username) ->
  exists score total res fs',
    submit_quiz now sub cu (Some fs) = (Return (submitted score total), Some fs')
    /\ quiz_results fs' !! username
       = Some (default [] (quiz_results fs !! username) ++ [res])
    /\ res !! "user" = Some (VStr username)
    /\ res !! "quiz_id" = Some (VStr (quiz_id sub))
    /\ res !! "score" = Some (VInt score)
    /\ res !! "total" = Some (VInt total)
    /\ res !! "answers" = Some (VList (VInt <$> answers sub))
    /\ quizzes fs' = quizzes fs
    /\ history fs' = history fs
    /\ (forall other, other <> username -> quiz_results fs' !! other = quiz_results fs !! other).
Proof.
  intros Hquiz Hqs Hcu. eexists _, _, _, _.
  rewrite (submit_quiz_run _ _ _ _ _ _ _ Hquiz Hqs Hcu). split; [reflexivity|].
  cbn [quiz_results_add quiz_results quizzes history].
  split; [by rewrite lookup_insert_eq|].
  do 5 (split; [reflexivity|]). split; [done|]. split; [done|].
  intros other Hother. by rewrite lookup_insert_ne.
Qed.

Lemma submit_quiz_recorded_witness :
  exists fs score total res fs',
    (create_quiz "t0" quiz_021 "q1" alice (Some empty_store)).2 = Some fs
    /\ submit_quiz "t1" {| quiz_id := "q1"; answers := [0; 1] |} bob (Some fs)
       = (Return (submitted score total), Some fs')
    /\ quiz_results fs' !! "bob" = Some (default [] (quiz_results fs !! "bob") ++ [res])
    /\ res !! "user" = Some (VStr "bob").
Proof.
  eexists.
  destruct (submit_quiz_recorded "t1" {| quiz_id := "q1"; answers := [0; 1] |} bob
              sample_quiz_store
              sample_quiz (questions quiz_021) "bob"
              sample_quiz_stored sample_quiz_questions bob_username)
    as (score & total & res & fs' & Hrun & Hres & Huser & _).
  exists score, total, res, fs'.
  split; [exact sample_quiz_created|]. split; [exact Hrun|]. split; [exact Hres|exact Huser].
Defined.

(** ** Providers *)

(** X14: a request to an advanced endpoint with a provider other than
    ["openai"] does not depend on the OpenAI key or on what OpenAI would
    answer: the text and image stubs, the unknown-provider fallbacks and the
    video, cartoon and voiceover endpoints never consult them. *)
Theorem dispatch_stub_ignores_services svc1 svc2 ep now user prompt provider model cu db :
  provider <> "openai" ->
  dispatch ep svc1 now user prompt provider model cu db
  = dispatch ep svc2 now user prompt provider model cu db.
Proof.
  intros Hp. destruct ep; unfold_endpoints; try reflexivity;
    rewrite !(bool_decide_eq_false_2 _ Hp), !andb_false_r, !(decide_False _ _ Hp);
    reflexivity.
Qed.

Lemma dispatch_stub_ignores_services_witness :
  "gemini" <> "openai"
  /\ dispatch AText svc_without_key "t0" "alice" "hi" "gemini" None alice None
     = dispatch AText svc_failing "t0" "alice" "hi" "gemini" None alice None.
Proof.
  assert (H : "gemini" <> "openai") by discriminate.
  split; [exact H|].
  exact (dispatch_stub_ignores_services svc_without_key svc_failing AText "t0" "alice" "hi"
           "gemini" None alice None H).
Defined.

(** X15: when the key is set, OpenAI answers and the user name is a plain
    document id, the text endpoints (plain, and advanced with provider openai)
    put the answer in [output] and the image endpoints put the URL in
    [storage_url]; the prompt is stored as given. *)
Theorem upstream_answer_is_stored svc now user prompt model cu db v :
  not_ (OPENAI_API_KEY svc) = false ->
  plain_id user = true ->
  (chat_completions_create svc prompt = Returns v ->
     (exists entry,
        generate_text svc now user prompt db
          = (Return (ok_entry entry), add_if_db db user entry)
        /\ str_field entry "output" = Some v
        /\ str_field entry "prompt" = Some prompt)
     /\ (exists entry,
        dispatch AText svc now user prompt "openai" model cu db
          = (Return (ok_entry entry), add_if_db db user entry)
        /\ str_field entry "output" = Some v
        /\ str_field entry "prompt" = Some prompt))
  /\ (images_generate svc prompt = Returns v ->
     (exists entry,
        generate_image svc now user prompt db
          = (Return (ok_entry entry), add_if_db db user entry)
        /\ str_field entry "storage_url" = Some v
        /\ str_field entry "prompt" = Some prompt)
     /\ (exists entry,
        dispatch AImage svc now user prompt "openai" model cu db
          = (Return (ok_entry entry), add_if_db db user entry)
        /\ str_field entry "storage_url" = Some v
        /\ str_field entry "prompt" = Some prompt)).
Proof.
  intros Hkey Hid%(plain_id_accepts db). split; intros Hup; split; unfold_endpoints;
    rewrite Hkey, Hup; cbn [andb]; rewrite Hid; by_entry.
Qed.

Lemma upstream_answer_is_stored_witness :
  not_ (OPENAI_API_KEY svc_with_key) = false
  /\ plain_id "alice" = true
  /\ chat_completions_create svc_with_key "hi" = Returns "echo hi"
  /\ exists entry,
       generate_text svc_with_key "t0" "alice" "hi" (Some empty_store)
         = (Return (ok_entry entry), add_if_db (Some empty_store) "alice" entry)
       /\ str_field entry "output" = Some "echo hi"
       /\ str_field entry "prompt" = Some "hi".
Proof.
  split; [reflexivity|]. split; [reflexivity|]. split; [reflexivity|].
  apply (upstream_answer_is_stored svc_with_key "t0" "alice" "hi" None alice
           (Some empty_store) "echo hi"); reflexivity.
Defined.

(** ** Accounts *)

Lemma user_truthy_lookup (user : dict) k v :
  user !! k = Some v -> user_truthy (Some user) = true.
Proof.
  intros Hk. unfold user_truthy. apply negb_true_iff, bool_decide_eq_false_2.
  intros Hsize. apply map_size_empty_iff in Hsize. subst. by rewrite lookup_empty in Hk.
Qed.

Lemma user_truthy_insert (user : dict) k v :
  user_truthy (Some (<[k := v]> user)) = true.
Proof. apply (user_truthy_lookup _ k v), lookup_insert_eq. Qed.

Lemma register_taken crypto salt now_created now_login data d user :
  users d !! r_username data = Some user ->
  user_truthy (Some user) = true ->
  register crypto salt now_created now_login data (Some d)
  = (Raise (HTTPException 400 "Username already exists"), Some d).
Proof. intros Hu Ht. unfold register, get_user. by rewrite Hu, Ht. Qed.

(** X16: [register] refuses a name whose document holds any field with a
    400 and changes nothing, whatever password is offered and whatever the
    password library would do; a document with a [password_hash] is such a
    document, so the name of an account is never registered again. *)
Theorem register_duplicate crypto salt now_created now_login data d user :
  users d !! r_username data = Some user ->
  (user_truthy (Some user) = true \/ is_Some (user !! "password_hash")) ->
  register crypto salt now_created now_login data (Some d)
  = (Raise (HTTPException 400 "Username already exists"), Some d).
Proof.
  intros Hu [Ht|[h Hh]]; eapply register_taken; eauto using user_truthy_lookup.
Qed.

(** The run of [register] on a free name. *)
Lemma register_run crypto salt now_created now_login data d h :
  user_truthy (users d !! r_username data) = false ->
  pwd_hash crypto salt (r_password data) = Return h ->
  register crypto salt now_created now_login data (Some d)
  = (Return (VDict {[ "status" := VStr "registered"; "user" := VStr (r_username data) ]}),
     Some (users_set (r_username data)
             {[ "username" := VStr (r_username data);
                "password_hash" := VStr h;
                "email" := from_option VStr VNone (r_email data);
                "created_at" := VStr now_created;
                "last_login" := VStr now_login ]} d)).
Proof.
  intros Hfree Hh. unfold register, get_user, get_password_hash. by rewrite Hfree, Hh.
Qed.

Lemma register_duplicate_witness :
  exists d user,
    (register toy_crypto "s" "t0" "t0" alice_registration (Some empty_database)).2 = Some d
    /\ users d !! r_username alice_registration = Some user
    /\ user_truthy (Some user) = true
    /\ register toy_crypto "s2" "t1" "t1"
         {| r_username := "alice"; r_password := "other"; r_email := None |} (Some d)
       = (Raise (HTTPException 400 "Username already exists"), Some d).
Proof.
  eexists _, _. split; [reflexivity|].
  assert (H1 : users (users_set "alice"
                 {[ "username" := VStr "alice"; "password_hash" := VStr "$toy$pw123";
                    "email" := VNone; "created_at" := VStr "t0"; "last_login" := VStr "t0" ]}
                 empty_database) !! "alice"
               = Some {[ "username" := VStr "alice"; "password_hash" := VStr "$toy$pw123";
                         "email" := VNone; "created_at" := VStr "t0";
                         "last_login" := VStr "t0" ]}) by reflexivity.
  assert (H2 : user_truthy (Some ({[ "username" := VStr "alice";
                  "password_hash" := VStr "$toy$pw123"; "email" := VNone;
                  "created_at" := VStr "t0"; "last_login" := VStr "t0" ]} : dict)) = true)
    by reflexivity.
  split; [exact H1|]. split; [exact H2|].
  exact (register_duplicate toy_crypto "s2" "t1" "t1"
           {| r_username := "alice"; r_password := "other"; r_email := None |} _ _ H1
           (or_introl H2)).
Defined.

(** X17: registering a free name that is a plain document id and then
    logging in with the same password succeeds, provided the password library
    verifies the hash it produced: the response names the user, the token is
    the signed payload [{sub: username, exp: utcnow + 3600}], and the login
    changes nothing but [last_login] of that account. *)
Theorem register_then_login crypto salt now_created now_login utcnow now username password
    email d h :
  plain_id username = true ->
  user_truthy (users d !! username) = false ->
  pwd_hash crypto salt password = Return h ->
  pwd_verify crypto password (VStr h) = Return true ->
  exists d1 doc,
    register crypto salt now_created now_login
      {| r_username := username; r_password := password; r_email := email |} (Some d)
      = (Return (VDict {[ "status" := VStr "registered"; "user" := VStr username ]}), Some d1)
    /\ users d1 !! username = Some doc
    /\ login crypto utcnow now {| l_username := username; l_password := password |} (Some d1)
       = (Return (VDict {[ "access_token" :=
                             VStr (jwt_encode crypto {[ "sub" := VStr username;
                                                        "exp" := VInt (utcnow + 3600) ]});
                           "token_type" := VStr "bearer";
                           "user" := VStr username ]}),
          Some (users_set username (<["last_login" := VStr now]> doc) d1))
    /\ doc !! "username" = Some (VStr username)
    /\ doc !! "password_hash" = Some (VStr h).
Proof.
  intros _ Hfree Hh Hv. eexists _, _.
  rewrite (register_run crypto salt now_created now_login
             {| r_username := username; r_password := password; r_email := email |} d h Hfree Hh).
  cbn [r_username r_password r_email].
  split; [reflexivity|].
  split; [cbn [users_set users]; by rewrite lookup_insert_eq|].
  split; [|split; reflexivity].
  unfold login, authenticate_user, get_user, verify_password, create_access_token.
  cbn [users_set users l_username l_password]. rewrite lookup_insert_eq.
  rewrite (user_truthy_lookup _ "username" (VStr username)) by reflexivity.
  cbn [negb].
  replace (({[ "username" := VStr username; "password_hash" := VStr h;
               "email" := from_option VStr VNone email; "created_at" := VStr now_created;
               "last_login" := VStr now_login ]} : dict) !! "password_hash")
    with (Some (VStr h)) by reflexivity.
  rewrite Hv. reflexivity.
Qed.

Lemma register_then_login_witness :
  plain_id "alice" = true
  /\ user_truthy (users empty_database !! "alice") = false
  /\ pwd_hash toy_crypto "s" "pw123" = Return "$toy$pw123"
  /\ pwd_verify toy_crypto "pw123" (VStr "$toy$pw123") = Return true
  /\ exists d1 token,
       (register toy_crypto "s" "t0" "t0" alice_registration (Some empty_database)).2 = Some d1
       /\ (login toy_crypto 100 "t1" alice_login (Some d1)).1
          = Return (VDict {[ "access_token" := VStr token; "token_type" := VStr "bearer";
                             "user" := VStr "alice" ]}).
Proof.
  assert (H1 : user_truthy (users empty_database !! "alice") = false) by reflexivity.
  assert (H2 : pwd_hash toy_crypto "s" "pw123" = Return "$toy$pw123") by reflexivity.
  assert (H3 : pwd_verify toy_crypto "pw123" (VStr "$toy$pw123") = Return true) by reflexivity.
  split; [reflexivity|]. split; [exact H1|]. split; [exact H2|]. split; [exact H3|].
  destruct (register_then_login toy_crypto "s" "t0" "t0" 100 "t1" "alice" "pw123" None
              empty_database "$toy$pw123" eq_refl H1 H2 H3)
    as (d1 & doc & Hreg & _ & Hlogin & _).
  exists d1, (jwt_encode toy_crypto {[ "sub" := VStr "alice"; "exp" := VInt (100 + 3600) ]}).
  split.
  - change alice_registration
      with {| r_username := "alice"; r_password := "pw123"; r_email := None |}.
    by rewrite Hreg.
  - change alice_login with {| l_username := "alice"; l_password := "pw123" |}.
    by rewrite Hlogin.
Defined.

Lemma login_refused crypto utcnow now data d :
  (users d !! l_username data = None
   \/ (exists user, users d !! l_username data = Some user
                    /\ (size user = 0%nat \/ user !! "password_hash" = None
                        \/ exists hashed, user !! "password_hash" = Some hashed
                             /\ pwd_verify crypto (l_password data) hashed = Return false))) ->
  login crypto utcnow now data (Some d)
  = (Raise (HTTPException 401 "Incorrect username or password"), Some d).
Proof.
  unfold login, authenticate_user, get_user, verify_password, user_truthy.
  intros [->|(user & -> & [Hsize|[Hnone|(hashed & Hh & Hv)]])]; [done|..].
  - by rewrite Hsize.
  - case_bool_decide; [done|]. cbn [negb]. by rewrite Hnone.
  - case_bool_decide; [done|]. cbn [negb]. by rewrite Hh, Hv.
Qed.

(** X18: for a name that is a plain document id, [login] answers the same
    401 and changes nothing when the name has no document, when its document
    is empty or has no [password_hash], and when the password library rejects
    the password; the response does not tell these cases apart. *)
Theorem login_rejected crypto utcnow now data d :
  plain_id (l_username data) = true ->
  (users d !! l_username data = None
   \/ (exists user, users d !! l_username data = Some user
                    /\ (size user = 0%nat \/ user !! "password_hash" = None
                        \/ exists hashed, user !! "password_hash" = Some hashed
                             /\ pwd_verify crypto (l_password data) hashed = Return false))) ->
  login crypto utcnow now data (Some d)
  = (Raise (HTTPException 401 "Incorrect username or password"), Some d).
Proof. intros _. apply login_refused. Qed.

Lemma login_rejected_witness :
  plain_id (l_username alice_login) = true
  /\ users empty_database !! l_username alice_login = None
  /\ login toy_crypto 100 "t1" alice_login (Some empty_database)
     = (Raise (HTTPException 401 "Incorrect username or password"), Some empty_database).
Proof.
  assert (H : users empty_database !! l_username alice_login = None) by reflexivity.
  split; [reflexivity|]. split; [exact H|].
  exact (login_rejected toy_crypto 100 "t1" alice_login empty_database eq_refl
           (or_introl H)).
Defined.

(** X19: [login_simple] on a plain document id without a document creates
    one that holds only [last_login]; from then on [register] refuses that
    name with a 400 and [login] refuses it with a 401 for every password, so
    the name can no longer become an account. *)
Theorem login_simple_takes_name crypto now username d :
  plain_id username = true ->
  users d !! username = None ->
  exists d1,
    login_simple now username (Some d)
      = (Return (VDict {[ "status" := VStr "ok"; "user" := VStr username ]}), Some d1)
    /\ users d1 !! username = Some {[ "last_login" := VStr now ]}
    /\ (forall salt now_created now_login password email,
          register crypto salt now_created now_login
            {| r_username := username; r_password := password; r_email := email |} (Some d1)
          = (Raise (HTTPException 400 "Username already exists"), Some d1))
    /\ (forall utcnow now' password,
          login crypto utcnow now' {| l_username := username; l_password := password |}
                (Some d1)
          = (Raise (HTTPException 401 "Incorrect username or password"), Some d1)).
Proof.
  intros _ Hfree. eexists. unfold login_simple. rewrite Hfree. cbn [default].
  split; [reflexivity|].
  assert (Hdoc : users (users_set username (<["last_login" := VStr now]> ∅) d) !! username
                 = Some {[ "last_login" := VStr now ]}).
  { cbn [users_set users]. by rewrite lookup_insert_eq. }
  split; [exact Hdoc|]. split.
  - intros. eapply register_taken; [exact Hdoc|reflexivity].
  - intros. apply login_refused. right. eexists. split; [exact Hdoc|].
    right. left. reflexivity.
Qed.

Lemma login_simple_takes_name_witness :
  plain_id "alice" = true
  /\ users empty_database !! "alice" = None
  /\ exists d1,
       (login_simple "t0" "alice" (Some empty_database)).2 = Some d1
       /\ register toy_crypto "s" "t1" "t1" alice_registration (Some d1)
          = (Raise (HTTPException 400 "Username already exists"), Some d1).
Proof.
  assert (H : users empty_database !! "alice" = None) by reflexivity.
  split; [reflexivity|]. split; [exact H|].
  destruct (login_simple_takes_name toy_crypto "t0" "alice" empty_database eq_refl H)
    as (d1 & Hrun & _ & Hreg & _).
  exists d1. split; [by rewrite Hrun|]. apply Hreg.
Defined.

(** ** Tokens and the API as a whole *)

(** X20: [get_current_user] returns a document exactly when the token
    decodes, its [sub] is a string, a database is configured and that name has
    a document; the document returned is the stored one. *)
Theorem get_current_user_resolves crypto utcnow token db user :
  get_current_user crypto utcnow token db = Return user
  <-> exists payload username d,
        jwt_decode crypto utcnow token = Some payload
        /\ payload !! "sub" = Some (VStr username)
        /\ db = Some d
        /\ users d !! username = Some user.
Proof.
  unfold get_current_user, get_user. split.
  - repeat case_match; intros; simplify_eq; eauto 10.
  - intros (payload & username & d & -> & -> & -> & ->). done.
Qed.

Lemma get_current_user_stored crypto utcnow token d payload username user :
  jwt_decode crypto utcnow token = Some payload ->
  payload !! "sub" = Some (VStr username) ->
  users d !! username = Some user ->
  get_current_user crypto utcnow token (Some d) = Return user.
Proof. unfold get_current_user, get_user. by intros -> -> ->. Qed.

Lemma get_current_user_unconfigured crypto utcnow token :
  get_current_user crypto utcnow token None = Raise credentials_exception.
Proof. unfold get_current_user, get_user. by repeat case_match. Qed.

Lemma serve_none crypto svc utcnow token r :
  serve crypto svc utcnow token r None
  = if requires_token r then (Raise credentials_exception, None)
    else ((handle svc r None).1, None).
Proof.
  unfold serve. destruct (requires_token r).
  - by rewrite get_current_user_unconfigured.
  - unfold on_store. cbn [fmap option_fmap option_map]. by destruct (handle svc r None).
Qed.

(** X21: with no database configured, every endpoint that depends on
    [get_current_user] answers the 401 of the dependency, whatever the token,
    before its own "Database not connected" check can run; the endpoints
    without the dependency answer as their handlers do. *)
Theorem serve_unconfigured crypto svc utcnow token r :
  serve crypto svc utcnow token r None
  = if requires_token r then (Raise credentials_exception, None)
    else ((handle svc r None).1, None).
Proof. apply serve_none. Qed.

Lemma api_none crypto svc c : (api crypto svc c None).2 = None.
Proof.
  destruct c; cbn [api]; try done. rewrite serve_none. by destruct (requires_token r).
Qed.

(** C5 (as the code has it): with no store configured, [/register],
    [/login], [/login/simple], [/upload-media] and [/user/history] fail with
    the 500 "Database not connected"; every endpoint that depends on
    [get_current_user] fails with the dependency's 401 before its handler
    runs; the plain generation endpoints guard the write with [if db:] and,
    unless the missing-key 500 applies, complete with status ok and return an
    entry that is stored nowhere. *)
Theorem store_unconfigured crypto svc c :
  match c with
  | Serve utcnow token r =>
    match r with
    | Generate ep now user prompt =>
      if legacy_checks_key ep && not_ (OPENAI_API_KEY svc)
      then api crypto svc c None = (Raise OpenAI_API_key_not_set, None)
      else exists entry,
        api crypto svc c None = (Return (ok_entry entry), None)
        /\ entry !! "user" = Some (VStr user)
    | UploadMedia _ _ _ _ _ _ _ _ | GetHistory _ =>
      api crypto svc c None = (Raise Database_not_connected, None)
    | _ => api crypto svc c None = (Raise credentials_exception, None)
    end
  | _ => api crypto svc c None = (Raise Database_not_connected, None)
  end.
Proof.
  destruct c as [| | |utcnow token r]; try reflexivity.
  cbn [api]. rewrite serve_none.
  destruct r as [| | |ep ? ? ?|ep ? ? ? ? ? ?| | | |]; try reflexivity.
  cbn [requires_token handle].
  destruct ep; unfold_endpoints; cbn [legacy_checks_key andb accepts];
    repeat case_match; simplify_eq; try reflexivity.
  all: eexists; split; reflexivity.
Qed.

Lemma handle_configured svc r fs : exists fs', (handle svc r (Some fs)).2 = Some fs'.
Proof.
  destruct (handle_effect svc r fs)
    as [H|[_ [(u & e & H)|[(id & q & ? & ? & ? & _ & H)|(u & res & ? & ? & ? & _ & H)]]]];
    eauto.
Qed.

Lemma handle_raise_same svc r fs e :
  (handle svc r (Some fs)).1 = Raise e -> (handle svc r (Some fs)).2 = Some fs.
Proof.
  intros He. destruct (handle_effect svc r fs) as [H|[[body Hb] _]]; [done|].
  cbn zeta in Hb. congruence.
Qed.

(** Running a handler on a configured client changes the store part only. *)
Lemma on_store_handle svc r d :
  exists fs',
    (handle svc r (Some (store d))).2 = Some fs'
    /\ on_store (Some d) (handle svc r)
       = ((handle svc r (Some (store d))).1, Some {| users := users d; store := fs' |}).
Proof.
  destruct (handle_configured svc r (store d)) as [fs' Hfs'].
  exists fs'. split; [done|]. unfold on_store. cbn [fmap option_fmap option_map].
  destruct (handle svc r (Some (store d))) as [res s]. cbn in Hfs'. by subst.
Qed.

Lemma serve_users crypto svc utcnow token r d :
  exists d', (serve crypto svc utcnow token r (Some d)).2 = Some d' /\ users d' = users d.
Proof.
  unfold serve. destruct (requires_token r).
  - destruct (get_current_user crypto utcnow token (Some d)) as [cu|e]; [|by eauto].
    destruct (on_store_handle svc (with_current_user cu r) d) as (fs' & _ & ->). by eauto.
  - destruct (on_store_handle svc r d) as (fs' & _ & ->). by eauto.
Qed.

Lemma serve_raise_same crypto svc utcnow token r d e :
  (serve crypto svc utcnow token r (Some d)).1 = Raise e ->
  (serve crypto svc utcnow token r (Some d)).2 = Some d.
Proof.
  unfold serve. destruct (requires_token r).
  - destruct (get_current_user crypto utcnow token (Some d)) as [cu|e']; [|done].
    destruct (on_store_handle svc (with_current_user cu r) d) as (fs' & Hfs' & ->).
    cbn. intros He. rewrite (handle_raise_same _ _ _ _ He) in Hfs'.
    simplify_eq. by destruct d.
  - destruct (on_store_handle svc r d) as (fs' & Hfs' & ->).
    cbn. intros He. rewrite (handle_raise_same _ _ _ _ He) in Hfs'.
    simplify_eq. by destruct d.
Qed.

(** X22: a call to the API that raises, at any endpoint and for any reason
    (a refused token, a taken name, a wrong password, a missing key, an
    unknown quiz, a failed upload), leaves the database exactly as it was;
    and no call turns a configured database into an unconfigured one or the
    other way round. *)
Theorem api_raise_unchanged crypto svc c db :
  match (api crypto svc c db).1 with
  | Raise _ => (api crypto svc c db).2 = db
  | Return _ => True
  end
  /\ ((api crypto svc c db).2 = None <-> db = None).
Proof.
  destruct c as [salt nc nl data|utcnow now data|now username|utcnow token r]; cbn [api].
  - unfold register. destruct db as [d|]; [|done].
    destruct (user_truthy _); [by split|].
    destruct (get_password_hash _ _ _); by split.
  - unfold login. destruct db as [d|]; [|done].
    destruct (authenticate_user _ _ _ _) as [[user|]|e]; by split.
  - unfold login_simple. destruct db as [d|]; by split.
  - destruct db as [d|].
    + split.
      * destruct ((serve crypto svc utcnow token r (Some d)).1) eqn:He; [done|].
        by eapply serve_raise_same.
      * destruct (serve_users crypto svc utcnow token r d) as (d' & -> & _). done.
    + rewrite serve_none. destruct (requires_token r); cbn [fst snd]; [by split|].
      split; [by destruct ((handle svc r None).1)|done].
Qed.

(** What a call can do to one account document: nothing, or set
    [last_login], or, for a name without fields, create it. *)
Lemma api_account_step crypto svc c d username :
  exists d',
    (api crypto svc c (Some d)).2 = Some d'
    /\ (users d' !! username = users d !! username
        \/ (exists now,
              users d' !! username
              = Some (<["last_login" := VStr now]> (default ∅ (users d !! username))))
        \/ (user_truthy (users d !! username) = false
            /\ exists h email now_created now_login,
                 users d' !! username
                 = Some {[ "username" := VStr username;
                           "password_hash" := VStr h;
                           "email" := email;
                           "created_at" := VStr now_created;
                           "last_login" := VStr now_login ]})).
Proof.
  destruct c as [salt nc nl data|utcnow now data|now u|utcnow token r]; cbn [api].
  - unfold register, get_user.
    destruct (user_truthy (users d !! r_username data)) eqn:Hfree; [by eauto|].
    destruct (get_password_hash crypto salt (r_password data)) as [h|e]; [|by eauto].
    eexists. split; [reflexivity|]. cbn [users_set users].
    destruct (decide (r_username data = username)) as [<-|Hne].
    + rewrite lookup_insert_eq. right. right. split; [done|]. by eauto 10.
    + rewrite lookup_insert_ne by done. by left.
  - unfold login.
    destruct (authenticate_user crypto (l_username data) (l_password data) (Some d))
      as [[user|]|e] eqn:Hauth; [|by eauto..].
    eexists. split; [reflexivity|]. cbn [users_set users].
    destruct (decide (l_username data = username)) as [<-|Hne].
    + rewrite lookup_insert_eq. right. left. exists now.
      unfold authenticate_user, get_user in Hauth.
      destruct (users d !! l_username data) as [u0|]; [|done].
      repeat case_match; by simplify_eq.
    + rewrite lookup_insert_ne by done. by left.
  - unfold login_simple. eexists. split; [reflexivity|]. cbn [users_set users].
    destruct (decide (u = username)) as [<-|Hne].
    + rewrite lookup_insert_eq. right. left. by eauto.
    + rewrite lookup_insert_ne by done. by left.
  - destruct (serve_users crypto svc utcnow token r d) as (d' & Hd' & Hu).
    exists d'. split; [done|]. left. by rewrite Hu.
Qed.

(** X23: no call changes the [password_hash] or the [username] of an
    existing account: whatever is called, with whatever arguments, the account
    is still there afterwards with the same hash and name. *)
Theorem api_keeps_password_hash crypto svc c d username user h :
  users d !! username = Some user ->
  user !! "password_hash" = Some h ->
  exists d' user',
    (api crypto svc c (Some d)).2 = Some d'
    /\ users d' !! username = Some user'
    /\ user' !! "password_hash" = Some h
    /\ user' !! "username" = user !! "username".
Proof.
  intros Hu Hh.
  destruct (api_account_step crypto svc c d username)
    as (d' & Hd' & [Hsame|[[now Hnow]|[Hfree _]]]).
  - exists d', user. by rewrite Hsame.
  - exists d', (<["last_login" := VStr now]> user). rewrite Hu in Hnow.
    by rewrite !lookup_insert_ne.
  - rewrite Hu, (user_truthy_lookup _ _ _ Hh) in Hfree. done.
Qed.

Lemma api_keeps_password_hash_witness :
  exists d user d' user',
    (register toy_crypto "s" "t0" "t0" alice_registration (Some empty_database)).2 = Some d
    /\ users d !! "alice" = Some user
    /\ user !! "password_hash" = Some (VStr "$toy$pw123")
    /\ (api toy_crypto svc_with_key (LoginSimple "t9" "alice") (Some d)).2 = Some d'
    /\ users d' !! "alice" = Some user'
    /\ user' !! "password_hash" = Some (VStr "$toy$pw123").
Proof.
  eexists _, _.
  assert (H1 : users (users_set "alice"
                 {[ "username" := VStr "alice"; "password_hash" := VStr "$toy$pw123";
                    "email" := VNone; "created_at" := VStr "t0"; "last_login" := VStr "t0" ]}
                 empty_database) !! "alice"
               = Some {[ "username" := VStr "alice"; "password_hash" := VStr "$toy$pw123";
                         "email" := VNone; "created_at" := VStr "t0";
                         "last_login" := VStr "t0" ]}) by reflexivity.
  assert (H2 : ({[ "username" := VStr "alice"; "password_hash" := VStr "$toy$pw123";
                   "email" := VNone; "created_at" := VStr "t0";
                   "last_login" := VStr "t0" ]} : dict) !! "password_hash"
               = Some (VStr "$toy$pw123")) by reflexivity.
  destruct (api_keeps_password_hash toy_crypto svc_with_key (LoginSimple "t9" "alice")
              _ _ _ _ H1 H2) as (d' & user' & Hd' & Hu' & Hh' & _).
  exists d', user'. split; [reflexivity|]. split; [exact H1|]. split; [exact H2|].
  split; [exact Hd'|]. split; [exact Hu'|exact Hh'].
Defined.

Lemma api_accounts_named_step crypto svc c db :
  accounts_named db -> accounts_named (api crypto svc c db).2.
Proof.
  intros Hdb d' username user' Hd' Hu' Hh'.
  destruct db as [d|];
    [|by rewrite api_none in Hd'].
  destruct (api_account_step crypto svc c d username) as (d1 & Hd1 & Hcases).
  rewrite Hd1 in Hd'. injection Hd' as <-.
  destruct Hcases as [Hsame|[[now Hnow]|[_ (h & email & nc & nl & Hnew)]]].
  - rewrite Hsame in Hu'. by eapply Hdb.
  - rewrite Hnow in Hu'. injection Hu' as <-.
    rewrite lookup_insert_ne in Hh' by done. rewrite lookup_insert_ne by done.
    destruct (users d !! username) as [user|] eqn:Hu; cbn [default] in *.
    + by eapply Hdb.
    + rewrite lookup_empty in Hh'. by destruct Hh'.
  - rewrite Hnew in Hu'. by injection Hu' as <-.
Qed.

(** X24: if every account that has a [password_hash] carries its own name
    in [username] (as in the empty database), the same holds in every database
    the API can reach; so a document that [authenticate_user] accepts names
    the user who logged in. *)
Theorem api_accounts_named crypto svc db0 db :
  accounts_named db0 ->
  api_reachable crypto svc db0 db ->
  accounts_named db
  /\ forall username password user,
       authenticate_user crypto username password db = Return (Some user) ->
       user !! "username" = Some (VStr username).
Proof.
  intros H0 Hr.
  assert (Hdb : accounts_named db).
  { induction Hr; [done|]. by apply api_accounts_named_step. }
  split; [done|]. intros username password user.
  unfold authenticate_user, get_user. destruct db as [d|]; [|done].
  destruct (users d !! username) as [u|] eqn:Hu; [|done].
  destruct (user_truthy (Some u)); cbn [negb]; [|done].
  destruct (u !! "password_hash") as [hashed|] eqn:Hh; [|done].
  intros Hv. assert (user = u) as -> by (repeat case_match; by simplify_eq).
  by eapply Hdb.
Qed.

Lemma empty_database_named : accounts_named (Some empty_database).
Proof. intros d username user [= <-] Hu. cbn in Hu. by rewrite lookup_empty in Hu. Qed.

Lemma api_accounts_named_witness :
  accounts_named (Some empty_database)
  /\ api_reachable toy_crypto svc_with_key (Some empty_database)
       (api toy_crypto svc_with_key (Register "s" "t0" "t0" alice_registration)
            (Some empty_database)).2
  /\ accounts_named
       (api toy_crypto svc_with_key (Register "s" "t0" "t0" alice_registration)
            (Some empty_database)).2.
Proof.
  split; [exact empty_database_named|].
  split; [apply api_reachable_step, api_reachable_init|].
  apply (api_accounts_named toy_crypto svc_with_key (Some empty_database)).
  - exact empty_database_named.
  - apply api_reachable_step, api_reachable_init.
Defined.

(** X25: a [save_content] request whose token resolves to the account
    [username] files the entry in the history of [username], whatever [user]
    the body names; and the listing of that history is then served to every
    caller, whatever token is presented, the new entry included. *)
Theorem serve_save_content crypto svc utcnow token now data cu0 d payload username user :
  jwt_decode crypto utcnow token = Some payload ->
  payload !! "sub" = Some (VStr username) ->
  users d !! username = Some user ->
  user !! "username" = Some (VStr username) ->
  timestamps_are_strings (history_stream (store d) username) ->
  exists entry d' l,
    serve crypto svc utcnow token (SaveContent now data cu0) (Some d)
      = (Return (VDict {[ "status" := VStr "saved"; "entry" := VDict entry ]}), Some d')
    /\ entry !! "user" = Some (VStr (c_user data))
    /\ users d' = users d
    /\ history_stream (store d') username = history_stream (store d) username ++ [entry]
    /\ l ≡ₚ entry :: history_stream (store d) username
    /\ forall crypto' utcnow' token',
         serve crypto' svc utcnow' token' (GetHistory username) (Some d')
         = (Return (VList (VDict <$> l)), Some d').
Proof.
  intros Hdec Hsub Hu Hname Hts.
  eexists (<["created_at" := VStr now]> (Content_dict data)),
          {| users := users d;
             store := history_add username (<["created_at" := VStr now]> (Content_dict data))
                                  (store d) |},
          (sorted_reverse (history_stream (store d) username
                           ++ [<["created_at" := VStr now]> (Content_dict data)])).
  split; [|split; [reflexivity|split; [reflexivity|split; [|split]]]].
  - unfold serve. cbn [requires_token with_current_user].
    rewrite (get_current_user_stored _ _ _ _ _ _ _ Hdec Hsub Hu).
    unfold on_store. cbn [fmap option_fmap option_map handle].
    unfold save_content. by rewrite Hname.
  - cbn [store]. by rewrite history_stream_add_eq, decide_True.
  - apply sorted_reverse_snoc_perm.
  - intros crypto' utcnow' token'. unfold serve, on_store.
    cbn [requires_token handle fmap option_fmap option_map store].
    rewrite get_history_add; [done..|]. by eexists.
Qed.

Lemma serve_save_content_witness :
  exists d entry d',
    (register toy_crypto "s" "t0" "t0" alice_registration (Some empty_database)).2 = Some d
    /\ jwt_decode toy_crypto 100 "jwt:alice" = Some {[ "sub" := VStr "alice" ]}
    /\ serve toy_crypto svc_with_key 100 "jwt:alice"
         (SaveContent "t1" {| c_user := "bob"; c_prompt := "p"; c_output := "o";
                              c_type := "text" |} ∅) (Some d)
       = (Return (VDict {[ "status" := VStr "saved"; "entry" := VDict entry ]}), Some d')
    /\ history_stream (store d') "alice" = history_stream (store d) "alice" ++ [entry].
Proof.
  eexists.
  assert (H1 : jwt_decode toy_crypto 100 "jwt:alice" = Some {[ "sub" := VStr "alice" ]})
    by reflexivity.
  assert (H2 : ({[ "sub" := VStr "alice" ]} : dict) !! "sub" = Some (VStr "alice"))
    by reflexivity.
  assert (H3 : users (users_set "alice"
                 {[ "username" := VStr "alice"; "password_hash" := VStr "$toy$pw123";
                    "email" := VNone; "created_at" := VStr "t0"; "last_login" := VStr "t0" ]}
                 empty_database) !! "alice"
               = Some {[ "username" := VStr "alice"; "password_hash" := VStr "$toy$pw123";
                         "email" := VNone; "created_at" := VStr "t0";
                         "last_login" := VStr "t0" ]}) by reflexivity.
  assert (H4 : ({[ "username" := VStr "alice"; "password_hash" := VStr "$toy$pw123";
                   "email" := VNone; "created_at" := VStr "t0";
                   "last_login" := VStr "t0" ]} : dict) !! "username"
               = Some (VStr "alice")) by reflexivity.
  assert (H5 : timestamps_are_strings
                 (history_stream (store (users_set "alice"
                    {[ "username" := VStr "alice"; "password_hash" := VStr "$toy$pw123";
                       "email" := VNone; "created_at" := VStr "t0";
                       "last_login" := VStr "t0" ]} empty_database)) "alice"))
    by constructor.
  destruct (serve_save_content toy_crypto svc_with_key 100 "jwt:alice" "t1"
              {| c_user := "bob"; c_prompt := "p"; c_output := "o"; c_type := "text" |}
              ∅ _ _ _ _ H1 H2 H3 H4 H5)
    as (entry & d' & l & Hrun & _ & _ & Hstream & _).
  exists entry, d'. split; [reflexivity|]. split; [exact H1|].
  split; [exact Hrun|exact Hstream].
Defined.
